(** * US visa appointment monitor: a shallow embedding of the two monitors

    The repository holds one Python class, [VisaAppointmentMonitor], in two
    variants: [snoop_bot.py] drives Chrome through Selenium, and
    [visa_monitor.py] drives Chromium through Playwright; [check_once.py]
    runs a single check of the second.  Every method is a sequence of calls
    into a browser or mail library, wrapped in [try/except/finally].

    The embedding is a state, trace and exception monad.  The state is the
    monitor object, the trace records the effects the properties speak about
    (log lines, browser start and release, mail, sleeps), and the third
    component is either a returned value or a raised Python exception.  What
    a library call answers is not decided by the program: it is read from an
    environment record with one field per call site. *)

From Stdlib Require Import String Ascii List ZArith Lia Bool DecimalString.
Import ListNotations.
Local Open Scope string_scope.
Local Open Scope list_scope.

(** Python's [+] on strings; [++] stays the append of lists. *)
Infix "+++" := String.append (right associativity, at level 60).

(** ** Python exceptions *)

(** The exception classes the sources name, plus the two roots.  An
    exception whose class is [Exception] stands for any other ordinary
    error; one whose class is [BaseException] stands for the non-ordinary
    ones other than [KeyboardInterrupt] (such as [SystemExit]). *)
Inductive exn_class : Type :=
| BaseException
| KeyboardInterrupt
| Exception
| NoSuchElementException
| TimeoutException
| StaleElementReferenceException
| PlaywrightTimeout.

Definition exn_class_eqb (c d : exn_class) : bool :=
  match c, d with
  | BaseException, BaseException
  | KeyboardInterrupt, KeyboardInterrupt
  | Exception, Exception
  | NoSuchElementException, NoSuchElementException
  | TimeoutException, TimeoutException
  | StaleElementReferenceException, StaleElementReferenceException
  | PlaywrightTimeout, PlaywrightTimeout => true
  | _, _ => false
  end.

(** [subclass c d]: class [c] is [d] or derives from it. *)
Definition subclass (c d : exn_class) : bool :=
  match d with
  | BaseException => true
  | Exception =>
      match c with
      | BaseException | KeyboardInterrupt => false
      | _ => true
      end
  | _ => exn_class_eqb c d
  end.

Record exn : Type := mkExn { exn_cls : exn_class; exn_msg : string }.

Definition isinstance (e : exn) (c : exn_class) : bool := subclass (exn_cls e) c.
Arguments isinstance : simpl never.

(** [str(e)] *)
Definition str (e : exn) : string := exn_msg e.

Inductive result (A : Type) : Type :=
| Ok (a : A)
| Raise (e : exn).
Arguments Ok {A} a.
Arguments Raise {A} e.

(** The call returned a value. *)
Definition returned {A} (r : result A) : bool :=
  match r with Ok _ => true | Raise _ => false end.

(** The answer is a value or an ordinary error (an [Exception]). *)
Definition ordinary {A} (r : result A) : bool :=
  match r with Ok _ => true | Raise e => isinstance e Exception end.

(** ** Observable effects *)

Definition handle := nat.

Inductive level : Type := INFO | WARNING | ERROR.

Inductive event : Type :=
| Log (l : level) (msg : string)
| BrowserStarted (h : handle)      (* webdriver.Chrome / chromium.launch returned h *)
| BrowserReleased (h : handle)     (* driver.quit() / browser.close() called on h *)
| PlaywrightStopped                (* playwright.stop() called *)
| Typed (field : string) (value : option string)
| SmtpConnect                      (* smtplib.SMTP('smtp.gmail.com', 587) called *)
| MailSent (sender recipient : option string) (subject body : string)
| Sleep (seconds : Z).             (* time.sleep called with that argument *)

Definition is_release (ev : event) : bool :=
  match ev with BrowserReleased _ => true | _ => false end.

Definition is_release_of (h : handle) (ev : event) : bool :=
  match ev with BrowserReleased h' => Nat.eqb h h' | _ => false end.

Definition is_start (ev : event) : bool :=
  match ev with BrowserStarted _ => true | _ => false end.

Definition is_mail (ev : event) : bool :=
  match ev with MailSent _ _ _ _ => true | _ => false end.

Definition is_connect (ev : event) : bool :=
  match ev with SmtpConnect => true | _ => false end.

Definition count (p : event -> bool) (tr : list event) : nat :=
  length (filter p tr).
Arguments count : simpl never.

(** ** The monad *)

Section Monad.
Context {St : Type}.

Definition M (A : Type) : Type := St -> list event * St * result A.

Definition ret {A} (a : A) : M A := fun s => ([], s, Ok a).

Definition bind {A B} (m : M A) (f : A -> M B) : M B :=
  fun s =>
    match m s with
    | (t, s', Ok a) => let '(t', s'', r) := f a s' in (t ++ t', s'', r)
    | (t, s', Raise e) => (t, s', Raise e)
    end.

Definition emit (ev : event) : M unit := fun s => ([ev], s, Ok tt).

(** A library call: its answer comes from the environment. *)
Definition call {A} (r : result A) : M A := fun s => ([], s, r).

Definition gets {A} (f : St -> A) : M A := fun s => ([], s, Ok (f s)).

Definition modify (f : St -> St) : M unit := fun s => ([], f s, Ok tt).

(** [try: m  except ...:] with the clauses folded into [h]: [h e] is
    [Some k] when a clause matches [e], and [k] is that clause's body. *)
Definition try_except {A} (m : M A) (h : exn -> option (M A)) : M A :=
  fun s =>
    match m s with
    | (t, s', Ok a) => (t, s', Ok a)
    | (t, s', Raise e) =>
        match h e with
        | Some k => let '(t', s'', r) := k s' in (t ++ t', s'', r)
        | None => (t, s', Raise e)
        end
    end.

(** [try: m  finally: fin].  An exception raised by [fin] replaces the
    outcome of [m], also a value being returned. *)
Definition try_finally {A} (m : M A) (fin : M unit) : M A :=
  fun s =>
    let '(t, s', r) := m s in
    match fin s' with
    | (t', s'', Ok _) => (t ++ t', s'', r)
    | (t', s'', Raise e) => (t ++ t', s'', Raise e)
    end.

(** [with enter as x: body]: [leave] is the manager's [__exit__]; it runs
    on both outcomes of the body and does not swallow the exception. *)
Definition with_ {A} (enter : M unit) (body : M A) (leave : M unit) : M A :=
  bind enter (fun _ => try_finally body leave).

End Monad.

Declare Scope py_scope.
Delimit Scope py_scope with py.
Notation "x <- m ;; k" := (bind m (fun x => k))
  (at level 61, m at next level, right associativity) : py_scope.
Notation "m ;; k" := (bind m (fun _ => k))
  (at level 61, right associativity) : py_scope.
Local Open Scope py_scope.

(** One [except C as e:] clause, and a bare [except:]. *)
Definition except {St A} (c : exn_class) (k : exn -> M (St:=St) A)
    (e : exn) : option (M (St:=St) A) :=
  if isinstance e c then Some (k e) else None.

Definition except_all {St A} (k : M (St:=St) A) (e : exn) : option (M (St:=St) A) :=
  Some k.

(** Two clauses in order: the first that matches is taken. *)
Definition orelse {St A} (h1 h2 : exn -> option (M (St:=St) A))
    (e : exn) : option (M (St:=St) A) :=
  match h1 e with Some k => Some k | None => h2 e end.

Definition info {St} (msg : string) : M (St:=St) unit := emit (Log INFO msg).
Definition warning {St} (msg : string) : M (St:=St) unit := emit (Log WARNING msg).
Definition error {St} (msg : string) : M (St:=St) unit := emit (Log ERROR msg).

Definition trace_of {St A} (x : list event * St * result A) : list event := fst (fst x).
Definition state_of {St A} (x : list event * St * result A) : St := snd (fst x).
Definition value_of {St A} (x : list event * St * result A) : result A := snd x.

(** ** Python values used by the monitors *)

(** Truth value of what [get_attribute] returns: [None] and the empty
    string are false, any other string is true. *)
Definition truthy (v : option string) : bool :=
  match v with
  | None => false
  | Some s => negb (String.eqb s "")
  end.

(** [needle in hay] on strings. *)
Fixpoint contains (needle hay : string) : bool :=
  if String.prefix needle hay then true
  else match hay with
       | EmptyString => false
       | String _ rest => contains needle rest
       end.

Arguments contains : simpl never.

(** [str(n)] for an integer. *)
Definition str_int (n : Z) : string := NilZero.string_of_int (Z.to_int n).

Definition bytes (l : list nat) : string :=
  string_of_list_ascii (map ascii_of_nat l).

(** The two pictograms of the notification, as the bytes the source files
    hold. *)
Definition party : string := bytes [195; 176; 197; 184; 197; 189; 226; 128; 176].
Definition siren : string := bytes [195; 176; 197; 184; 197; 161; 194; 168].

Definition LF : string := String (ascii_of_nat 10) EmptyString.

Definition sign_in_url : string := "https://ais.usvisa-info.com/en-ca/niv/users/sign_in".

Definition available_subject : string :=
  siren +++ " US Visa Appointment Available in Calgary!".

Definition available_message : string :=
  party +++ " APPOINTMENT AVAILABLE!" +++ LF +++ LF
  +++ "The Reschedule button is now ENABLED in Calgary!" +++ LF
  +++ "This means appointment slots have opened up." +++ LF +++ LF
  +++ "Log in immediately to book your appointment:" +++ LF
  +++ sign_in_url.

Definition started_subject : string := "Visa Monitor Started".

Definition started_message : string :=
  "The appointment monitoring bot has started. You'll receive notifications when appointments become available.".

(** ** Credentials and mail *)

(** What [os.getenv] gives for the five variables: [None] when unset. *)
Record Credentials : Type := mkCredentials {
  VISA_EMAIL : option string;
  VISA_PASSWORD : option string;
  NOTIFICATION_EMAIL : option string;
  SMTP_EMAIL : option string;
  SMTP_APP_PASSWORD : option string
}.

Definition is_none {A} (o : option A) : bool :=
  match o with None => true | Some _ => false end.

Definition missing_field (c : Credentials) : bool :=
  is_none (VISA_EMAIL c) || is_none (VISA_PASSWORD c)
  || is_none (NOTIFICATION_EMAIL c) || is_none (SMTP_EMAIL c)
  || is_none (SMTP_APP_PASSWORD c).

(** Answers of the mail library during one [send_notification]. *)
Record smtp_env : Type := mkSmtpEnv {
  build_message : result unit;     (* MIMEMultipart(), headers, attach *)
  smtp_connect : result unit;      (* smtplib.SMTP('smtp.gmail.com', 587) *)
  smtp_starttls : result unit;
  smtp_login : result unit;
  smtp_send_message : result unit;
  smtp_exit : result unit          (* SMTP.__exit__ *)
}.

Section SendNotification.
Context {St : Type}.
Variables (get_smtp_email get_notification_email : St -> option string).

(** [send_notification], the same text in both variants. *)
Definition send_notification_body (env : smtp_env) (subject message : string)
    : M (St:=St) unit :=
  from <- gets get_smtp_email ;;
  to <- gets get_notification_email ;;
  call (build_message env) ;;
  with_ (emit SmtpConnect ;; call (smtp_connect env))
        (call (smtp_starttls env) ;;
         call (smtp_login env) ;;
         call (smtp_send_message env) ;;
         emit (MailSent from to subject message))
        (call (smtp_exit env)) ;;
  info ("Notification sent: " +++ subject).

Definition send_notification (env : smtp_env) (subject message : string)
    : M (St:=St) unit :=
  try_except (send_notification_body env subject message)
    (except Exception (fun e => error ("Failed to send notification: " +++ str e))).

End SendNotification.

(** ** Verdicts *)

(** The three outcomes of one probe.  The methods return a boolean; the
    verdict is read off the outcome of the statements under the probe's
    outer [try]: the value they return, or the fact that they raised. *)
Inductive AvailabilityVerdict : Type := Available | Unavailable | Indeterminate.

Definition verdict_of (r : result bool) : AvailabilityVerdict :=
  match r with
  | Ok true => Available
  | Ok false => Unavailable
  | Raise _ => Indeterminate
  end.

(** ** The continuous loop, shared by both variants *)

(** What one turn of [while True] meets: the answers during the check, and
    the answers of the two [time.sleep(check_interval)] calls. *)
Record iter_env (check_env : Type) : Type := mkIterEnv {
  during_check : check_env;
  sleep_after_check : result unit;
  sleep_after_error : result unit
}.
Arguments mkIterEnv {check_env}.
Arguments during_check {check_env}.
Arguments sleep_after_check {check_env}.
Arguments sleep_after_error {check_env}.

(** How an unrolling of the loop ends: by [break], or because the
    unrolling stops there (the loop itself goes on). *)
Inductive loop_end : Type := Broke | GoesOn.

Section MonitorLoop.
Context {St check_env : Type}.
Variable check_appointments : check_env -> M (St:=St) bool.
Variable check_interval : Z.
Variable envs : nat -> iter_env check_env.

(** The body of [while True]; [true] means the loop takes another turn. *)
Definition loop_turn (i : nat) : M (St:=St) bool :=
  try_except
    (info "Starting appointment check..." ;;
     check_appointments (during_check (envs i)) ;;
     info ("Check complete. Waiting " +++ str_int check_interval
           +++ " seconds until next check...") ;;
     emit (Sleep check_interval) ;;
     call (sleep_after_check (envs i)) ;;
     ret true)
    (orelse
       (except KeyboardInterrupt (fun _ =>
          info "Monitor stopped by user" ;;
          ret false))
       (except Exception (fun e =>
          error ("Error in monitor loop: " +++ str e) ;;
          emit (Sleep check_interval) ;;
          call (sleep_after_error (envs i)) ;;
          ret true))).

(** [turns] turns of the loop, starting with turn number [i]. *)
Fixpoint monitor_loop (turns i : nat) : M (St:=St) loop_end :=
  match turns with
  | O => ret GoesOn
  | S turns' =>
      again <- loop_turn i ;;
      if again then monitor_loop turns' (S i) else ret Broke
  end.

End MonitorLoop.

(** ** [snoop_bot.py]: the Selenium variant *)

Module SnoopBot.

Record VisaAppointmentMonitor : Type := mkMonitor {
  email : option string;
  password : option string;
  notification_email : option string;
  smtp_email : option string;
  smtp_password : option string;
  driver : option handle
}.

(** [__init__] *)
Definition init (c : Credentials) : VisaAppointmentMonitor :=
  {| email := VISA_EMAIL c;
     password := VISA_PASSWORD c;
     notification_email := NOTIFICATION_EMAIL c;
     smtp_email := SMTP_EMAIL c;
     smtp_password := SMTP_APP_PASSWORD c;
     driver := None |}.

Definition set_driver (h : handle) (self : VisaAppointmentMonitor)
    : VisaAppointmentMonitor :=
  {| email := email self;
     password := password self;
     notification_email := notification_email self;
     smtp_email := smtp_email self;
     smtp_password := smtp_password self;
     driver := Some h |}.

(** Answers of Selenium, the clock and the mail library during one check,
    one field per call site, in program order. *)
Record env : Type := mkEnv {
  (* setup_driver *)
  webdriver_Chrome : result handle;
  execute_cdp_cmd : result unit;
  hide_webdriver : result unit;
  implicitly_wait : result unit;
  (* login *)
  get_sign_in : result unit;
  wait_user_email : result unit;
  email_clear : result unit;
  email_send_keys : result unit;
  find_user_password : result unit;
  password_clear : result unit;
  password_send_keys : result unit;
  find_policy_confirmed : result unit;
  policy_is_selected : result bool;
  policy_js_click : result unit;
  find_commit : result unit;
  commit_click : result unit;
  sleep_3 : result unit;
  (* where the browser is once the form was submitted: what
     driver.current_url would give; this variant never reads it *)
  current_url : string;
  (* navigate_to_reschedule *)
  wait_continue : result unit;
  continue_click : result unit;
  wait_accordion : result unit;
  accordion_click : result unit;
  wait_reschedule : result unit;
  scroll_into_view : result unit;
  reschedule_click : result unit;
  reschedule_js_click : result unit;
  (* check_reschedule_availability *)
  wait_facility : result unit;
  make_select : result unit;
  select_calgary : result unit;
  sleep_4 : result unit;
  find_busy : result unit;
  busy_is_displayed : result bool;
  find_submit : result unit;
  get_attribute_disabled : result (option string);
  (* send_notification *)
  smtp : smtp_env;
  (* finally *)
  driver_quit : result unit
}.

Definition Py : Type -> Type := M (St:=VisaAppointmentMonitor).

(** [setup_driver].  Filling in the [ChromeOptions] object touches nothing
    outside the method and is left out; the first call into Selenium is
    [webdriver.Chrome], whose result is stored in [self.driver] at once. *)
Definition setup_driver (E : env) : Py unit :=
  h <- call (webdriver_Chrome E) ;;
  emit (BrowserStarted h) ;;
  modify (set_driver h) ;;
  call (execute_cdp_cmd E) ;;
  call (hide_webdriver E) ;;
  call (implicitly_wait E).

Definition send_notification : smtp_env -> string -> string -> Py unit :=
  send_notification smtp_email notification_email.

Definition login (E : env) : Py bool :=
  try_except
    (info "Navigating to login page..." ;;
     call (get_sign_in E) ;;
     call (wait_user_email E) ;;
     call (email_clear E) ;;
     v <- gets email ;;
     emit (Typed "user_email" v) ;;
     call (email_send_keys E) ;;
     call (find_user_password E) ;;
     call (password_clear E) ;;
     v <- gets password ;;
     emit (Typed "user_password" v) ;;
     call (password_send_keys E) ;;
     try_except
       (call (find_policy_confirmed E) ;;
        selected <- call (policy_is_selected E) ;;
        if negb selected then call (policy_js_click E) else ret tt)
       (except NoSuchElementException (fun _ => ret tt)) ;;
     call (find_commit E) ;;
     call (commit_click E) ;;
     info "Login submitted" ;;
     emit (Sleep 3) ;;
     call (sleep_3 E) ;;
     ret true)
    (except Exception (fun e =>
       error ("Login failed: " +++ str e) ;;
       ret false)).

Definition navigate_to_reschedule (E : env) : Py bool :=
  try_except
    (info "Looking for Continue button..." ;;
     call (wait_continue E) ;;
     call (continue_click E) ;;
     info "Expanding 'Reschedule Appointment' accordion..." ;;
     call (wait_accordion E) ;;
     call (accordion_click E) ;;
     info "Clicking green 'Reschedule Appointment' button..." ;;
     call (wait_reschedule E) ;;
     call (scroll_into_view E) ;;
     try_except
       (call (reschedule_click E))
       (except_all (call (reschedule_js_click E))) ;;
     ret true)
    (except Exception (fun e =>
       error ("Navigation to reschedule failed: " +++ str e) ;;
       ret false)).

(** The inner [try] of the probe: [Some b] when it leaves the method with
    [return b], [None] when control goes on below it. *)
Definition busy_check (E : env) : Py (option bool) :=
  try_except
    (call (find_busy E) ;;
     displayed <- call (busy_is_displayed E) ;;
     if displayed then
       info "System is busy - no appointments available" ;;
       ret (Some false)
     else ret None)
    (except NoSuchElementException (fun _ =>
       info "No 'system busy' message found - good sign!" ;;
       ret None)).

(** The statements under the outer [try] of the probe. *)
Definition check_reschedule_availability_body (E : env) : Py bool :=
  info "Selecting Calgary location..." ;;
  call (wait_facility E) ;;
  call (make_select E) ;;
  call (select_calgary E) ;;
  emit (Sleep 4) ;;
  call (sleep_4 E) ;;
  info "Checking for system busy message..." ;;
  early <- busy_check E ;;
  match early with
  | Some b => ret b
  | None =>
      info "Checking if Reschedule button is enabled..." ;;
      call (find_submit E) ;;
      is_disabled <- call (get_attribute_disabled E) ;;
      if truthy is_disabled then
        info "Reschedule button is disabled - no appointments available" ;;
        ret false
      else
        info (party +++ " Reschedule button is ENABLED - appointments are available!") ;;
        ret true
  end.

Definition check_reschedule_availability (E : env) : Py bool :=
  try_except
    (check_reschedule_availability_body E)
    (except Exception (fun e =>
       error ("Availability check failed: " +++ str e) ;;
       ret false)).

(** The [finally] clause of [check_appointments]. *)
Definition release (E : env) : Py unit :=
  d <- gets driver ;;
  match d with
  | Some h => emit (BrowserReleased h) ;; call (driver_quit E)
  | None => ret tt
  end.

(** [check_appointments] from the call of [login] to the last [return]. *)
Definition check_pipeline (E : env) : Py bool :=
  logged_in <- login E ;;
  if negb logged_in then ret false else
  reached <- navigate_to_reschedule E ;;
  if negb reached then ret false else
  is_available <- check_reschedule_availability E ;;
  if Bool.eqb is_available false then
    send_notification (smtp E) available_subject available_message ;;
    ret true
  else
    info "No available appointments - system is busy or button disabled" ;;
    ret false.

(** The statements under the [try] of [check_appointments]. *)
Definition check_appointments_body (E : env) : Py bool :=
  setup_driver E ;;
  check_pipeline E.

Definition check_appointments (E : env) : Py bool :=
  try_finally
    (try_except
       (check_appointments_body E)
       (except Exception (fun e =>
          error ("Check failed: " +++ str e) ;;
          ret false)))
    (release E).

Definition run_monitor (start : smtp_env) (envs : nat -> iter_env env)
    (check_interval : Z) (turns : nat) : Py loop_end :=
  info "Starting visa appointment monitor..." ;;
  send_notification start started_subject started_message ;;
  monitor_loop check_appointments check_interval envs turns 0.

(** The [__main__] block, with the loop unrolled [turns] times. *)
Definition main (c : Credentials) (start : smtp_env) (envs : nat -> iter_env env)
    (turns : nat) : list event * VisaAppointmentMonitor * result loop_end :=
  run_monitor start envs 30 turns (init c).

(** *** What the page shows to the probe *)

(** The location was selected and the settle interval passed. *)
Definition reaches_inspection (E : env) : bool :=
  returned (wait_facility E) && returned (make_select E)
  && returned (select_calgary E) && returned (sleep_4 E).

(** The busy message is on the page and displayed. *)
Definition busy_shown (E : env) : bool :=
  match find_busy E, busy_is_displayed E with
  | Ok _, Ok true => true
  | _, _ => false
  end.

(** The busy message is not on the page, or is there and not displayed. *)
Definition busy_not_shown (E : env) : bool :=
  match find_busy E with
  | Ok _ => match busy_is_displayed E with Ok false => true | _ => false end
  | Raise e => isinstance e NoSuchElementException
  end.

(** The submit control is found and its attribute reads [v]. *)
Definition submit_reads (E : env) (v : option string) : Prop :=
  returned (find_submit E) = true /\ get_attribute_disabled E = Ok v.

Definition probe_verdict (E : env) (self : VisaAppointmentMonitor)
    : AvailabilityVerdict :=
  verdict_of (value_of (check_reschedule_availability_body E self)).

(** *** What the login form meets *)

(** Every call of [login] up to and including the settle interval
    returned; the policy checkbox may be missing. *)
Definition submission_completes (E : env) : bool :=
  returned (get_sign_in E) && returned (wait_user_email E)
  && returned (email_clear E) && returned (email_send_keys E)
  && returned (find_user_password E) && returned (password_clear E)
  && returned (password_send_keys E)
  && match find_policy_confirmed E with
     | Ok _ =>
         match policy_is_selected E with
         | Ok true => true
         | Ok false => returned (policy_js_click E)
         | Raise _ => false
         end
     | Raise e => isinstance e NoSuchElementException
     end
  && returned (find_commit E) && returned (commit_click E)
  && returned (sleep_3 E).

End SnoopBot.

(** ** [visa_monitor.py]: the Playwright variant *)

Module VisaMonitor.

Record VisaAppointmentMonitor : Type := mkMonitor {
  email : option string;
  password : option string;
  notification_email : option string;
  smtp_email : option string;
  smtp_password : option string;
  browser : option handle;
  page : option handle
}.

(** [__init__] *)
Definition init (c : Credentials) : VisaAppointmentMonitor :=
  {| email := VISA_EMAIL c;
     password := VISA_PASSWORD c;
     notification_email := NOTIFICATION_EMAIL c;
     smtp_email := SMTP_EMAIL c;
     smtp_password := SMTP_APP_PASSWORD c;
     browser := None;
     page := None |}.

Definition set_browser (h : handle) (self : VisaAppointmentMonitor)
    : VisaAppointmentMonitor :=
  {| email := email self;
     password := password self;
     notification_email := notification_email self;
     smtp_email := smtp_email self;
     smtp_password := smtp_password self;
     browser := Some h;
     page := page self |}.

Definition set_page (p : handle) (self : VisaAppointmentMonitor)
    : VisaAppointmentMonitor :=
  {| email := email self;
     password := password self;
     notification_email := notification_email self;
     smtp_email := smtp_email self;
     smtp_password := smtp_password self;
     browser := browser self;
     page := Some p |}.

(** Answers of Playwright and the mail library during one check, one
    field per call site, in program order. *)
Record env : Type := mkEnv {
  (* check_appointments, before login *)
  sync_playwright_start : result unit;
  chromium_launch : result handle;
  new_context : result unit;
  new_page : result handle;
  (* login *)
  goto_sign_in : result unit;
  wait_user_email : result unit;
  fill_user_email : result unit;
  fill_user_password : result unit;
  wait_policy_confirmed : result unit;
  policy_is_checked : result bool;
  policy_label_click : result unit;
  wait_500 : result unit;
  commit_click : result unit;
  wait_3000 : result unit;
  page_url : result string;
  (* navigate_to_reschedule *)
  wait_continue : result unit;
  continue_click : result unit;
  wait_accordion : result unit;
  accordion_click : result unit;
  wait_reschedule : result unit;
  scroll_into_view : result unit;
  reschedule_click : result unit;
  (* check_reschedule_availability *)
  wait_facility : result unit;
  select_calgary : result unit;
  wait_4000 : result unit;
  locate_busy : result unit;
  busy_is_visible : result bool;
  locate_submit : result unit;
  get_attribute_disabled : result (option string);
  (* send_notification *)
  smtp : smtp_env;
  (* finally *)
  browser_close : result unit;
  playwright_stop : result unit
}.

Definition Py : Type -> Type := M (St:=VisaAppointmentMonitor).

Definition send_notification : smtp_env -> string -> string -> Py unit :=
  send_notification smtp_email notification_email.

(** The [try] around the policy checkbox. *)
Definition accept_policy (E : env) : Py unit :=
  try_except
    (info "Looking for policy checkbox..." ;;
     call (wait_policy_confirmed E) ;;
     checked <- call (policy_is_checked E) ;;
     if negb checked then
       info "Checking policy checkbox by clicking label..." ;;
       call (policy_label_click E) ;;
       call (wait_500 E) ;;
       info "Policy checkbox checked successfully"
     else
       info "Policy checkbox already checked")
    (orelse
       (except PlaywrightTimeout (fun _ =>
          warning "Policy checkbox not found - it may not be required"))
       (except Exception (fun e =>
          warning ("Could not check policy checkbox: " +++ str e)))).

(** The [try] that verifies the login: [Some false] when it leaves the
    method with [return False], [None] when control goes on below it. *)
Definition verify_login (E : env) : Py (option bool) :=
  try_except
    (current_url <- call (page_url E) ;;
     info ("Current URL after login: " +++ current_url) ;;
     if contains "sign_in" current_url then
       error "Still on login page - login may have failed" ;;
       ret (Some false)
     else ret None)
    (except_all (ret None)).

Definition login (E : env) : Py bool :=
  try_except
    (info "Navigating to login page..." ;;
     call (goto_sign_in E) ;;
     call (wait_user_email E) ;;
     v <- gets email ;;
     emit (Typed "user_email" v) ;;
     call (fill_user_email E) ;;
     v <- gets password ;;
     emit (Typed "user_password" v) ;;
     call (fill_user_password E) ;;
     accept_policy E ;;
     info "Clicking sign in button..." ;;
     call (commit_click E) ;;
     info "Login submitted" ;;
     call (wait_3000 E) ;;
     early <- verify_login E ;;
     match early with
     | Some b => ret b
     | None => ret true
     end)
    (except Exception (fun e =>
       error ("Login failed: " +++ str e) ;;
       ret false)).

Definition navigate_to_reschedule (E : env) : Py bool :=
  try_except
    (info "Looking for Continue button..." ;;
     call (wait_continue E) ;;
     call (continue_click E) ;;
     info "Expanding 'Reschedule Appointment' accordion..." ;;
     call (wait_accordion E) ;;
     call (accordion_click E) ;;
     info "Clicking green 'Reschedule Appointment' button..." ;;
     call (wait_reschedule E) ;;
     call (scroll_into_view E) ;;
     call (reschedule_click E) ;;
     ret true)
    (except Exception (fun e =>
       error ("Navigation to reschedule failed: " +++ str e) ;;
       ret false)).

(** The inner [try] of the probe: [Some b] when it leaves the method with
    [return b], [None] when control goes on below it. *)
Definition busy_check (E : env) : Py (option bool) :=
  try_except
    (call (locate_busy E) ;;
     visible <- call (busy_is_visible E) ;;
     if visible then
       info "System is busy - no appointments available" ;;
       ret (Some false)
     else ret None)
    (except_all
       (info "No 'system busy' message found - good sign!" ;;
        ret None)).

(** The statements under the outer [try] of the probe. *)
Definition check_reschedule_availability_body (E : env) : Py bool :=
  info "Selecting Calgary location..." ;;
  call (wait_facility E) ;;
  call (select_calgary E) ;;
  call (wait_4000 E) ;;
  info "Checking for system busy message..." ;;
  early <- busy_check E ;;
  match early with
  | Some b => ret b
  | None =>
      info "Checking if Reschedule button is enabled..." ;;
      call (locate_submit E) ;;
      is_disabled <- call (get_attribute_disabled E) ;;
      if truthy is_disabled then
        info "Reschedule button is disabled - no appointments available" ;;
        ret false
      else
        info (party +++ " Reschedule button is ENABLED - appointments are available!") ;;
        ret true
  end.

Definition check_reschedule_availability (E : env) : Py bool :=
  try_except
    (check_reschedule_availability_body E)
    (except Exception (fun e =>
       error ("Availability check failed: " +++ str e) ;;
       ret false)).

(** The [finally] clause of [check_appointments].  The local variable
    [playwright] is assigned by the first statement under [try] and by
    nothing else, so it is set here exactly when that call returned. *)
Definition release (E : env) : Py unit :=
  b <- gets browser ;;
  match b with
  | Some h => emit (BrowserReleased h) ;; call (browser_close E)
  | None => ret tt
  end ;;
  if returned (sync_playwright_start E) then
    emit PlaywrightStopped ;; call (playwright_stop E)
  else ret tt.

(** [check_appointments] from the call of [login] to the last [return]. *)
Definition check_pipeline (E : env) : Py bool :=
  logged_in <- login E ;;
  if negb logged_in then ret false else
  reached <- navigate_to_reschedule E ;;
  if negb reached then ret false else
  is_available <- check_reschedule_availability E ;;
  if Bool.eqb is_available false then
    send_notification (smtp E) available_subject available_message ;;
    ret true
  else
    info "No available appointments - system is busy or button disabled" ;;
    ret false.

(** The statements of [check_appointments] that come before [login]. *)
Definition open_browser (E : env) : Py unit :=
  call (sync_playwright_start E) ;;
  h <- call (chromium_launch E) ;;
  emit (BrowserStarted h) ;;
  modify (set_browser h) ;;
  call (new_context E) ;;
  p <- call (new_page E) ;;
  modify (set_page p).

(** The statements under the [try] of [check_appointments]. *)
Definition check_appointments_body (E : env) : Py bool :=
  open_browser E ;;
  check_pipeline E.

Definition check_appointments (E : env) : Py bool :=
  try_finally
    (try_except
       (check_appointments_body E)
       (except Exception (fun e =>
          error ("Check failed: " +++ str e) ;;
          ret false)))
    (release E).

Definition run_monitor (start : smtp_env) (envs : nat -> iter_env env)
    (check_interval : Z) (turns : nat) : Py loop_end :=
  info "Starting visa appointment monitor..." ;;
  send_notification start started_subject started_message ;;
  monitor_loop check_appointments check_interval envs turns 0.

(** The [__main__] block, with the loop unrolled [turns] times. *)
Definition main (c : Credentials) (start : smtp_env) (envs : nat -> iter_env env)
    (turns : nat) : list event * VisaAppointmentMonitor * result loop_end :=
  run_monitor start envs 1800 turns (init c).

(** *** What the page shows to the probe *)

(** The location was selected and the settle interval passed. *)
Definition reaches_inspection (E : env) : bool :=
  returned (wait_facility E) && returned (select_calgary E)
  && returned (wait_4000 E).

(** The busy message is on the page and visible. *)
Definition busy_shown (E : env) : bool :=
  match locate_busy E, busy_is_visible E with
  | Ok _, Ok true => true
  | _, _ => false
  end.

(** The submit control is found and its attribute reads [v]. *)
Definition submit_reads (E : env) (v : option string) : Prop :=
  returned (locate_submit E) = true /\ get_attribute_disabled E = Ok v.

Definition probe_verdict (E : env) (self : VisaAppointmentMonitor)
    : AvailabilityVerdict :=
  verdict_of (value_of (check_reschedule_availability_body E self)).

(** *** What the login form meets *)

(** The answer lets [accept_policy] go on: it does unless the checkbox
    step is cut short by something other than an ordinary error. *)
Definition policy_passes (E : env) : bool :=
  ordinary (wait_policy_confirmed E)
  && match wait_policy_confirmed E with
     | Ok _ =>
         ordinary (policy_is_checked E)
         && match policy_is_checked E with
            | Ok false =>
                ordinary (policy_label_click E)
                && match policy_label_click E with
                   | Ok _ => ordinary (wait_500 E)
                   | Raise _ => true
                   end
            | _ => true
            end
     | Raise _ => true
     end.

(** Every call of [login] up to and including the settle interval
    returned, the policy checkbox apart. *)
Definition submission_completes (E : env) : bool :=
  returned (goto_sign_in E) && returned (wait_user_email E)
  && returned (fill_user_email E) && returned (fill_user_password E)
  && policy_passes E
  && returned (commit_click E) && returned (wait_3000 E).

End VisaMonitor.

(** ** [check_once.py]: one check of the Playwright variant *)

Module CheckOnce.

Definition main (c : Credentials) (E : VisaMonitor.env)
    : list event * VisaMonitor.VisaAppointmentMonitor * result unit :=
  (info "Starting scheduled appointment check..." ;;
   VisaMonitor.check_appointments E ;;
   info "Check complete. Exiting.") (VisaMonitor.init c).

End CheckOnce.

(** ** Pages on which every call returns *)

Definition Ok_tt : result unit := Ok tt.

Definition smtp_ok : smtp_env :=
  {| build_message := Ok_tt; smtp_connect := Ok_tt; smtp_starttls := Ok_tt;
     smtp_login := Ok_tt; smtp_send_message := Ok_tt; smtp_exit := Ok_tt |}.

Definition no_such_element : exn := mkExn NoSuchElementException "no such element".
Definition timed_out : exn := mkExn TimeoutException "timeout".
Definition playwright_timed_out : exn := mkExn PlaywrightTimeout "Timeout 20000ms exceeded.".
Definition session_lost : exn := mkExn Exception "invalid session id".

(** A site on which every element is found and every call returns.  [url]
    is where the browser is once the login form was submitted, [busy] says
    whether the busy message is on the page and, if so, whether it is
    shown, and [disabled] is the submit control's attribute. *)
Definition selenium_site (h : handle) (url : string) (facility : result unit)
    (busy : option bool) (disabled : option string) (quit : result unit)
    : SnoopBot.env :=
  {| SnoopBot.webdriver_Chrome := Ok h;
     SnoopBot.execute_cdp_cmd := Ok_tt;
     SnoopBot.hide_webdriver := Ok_tt;
     SnoopBot.implicitly_wait := Ok_tt;
     SnoopBot.get_sign_in := Ok_tt;
     SnoopBot.wait_user_email := Ok_tt;
     SnoopBot.email_clear := Ok_tt;
     SnoopBot.email_send_keys := Ok_tt;
     SnoopBot.find_user_password := Ok_tt;
     SnoopBot.password_clear := Ok_tt;
     SnoopBot.password_send_keys := Ok_tt;
     SnoopBot.find_policy_confirmed := Ok_tt;
     SnoopBot.policy_is_selected := Ok false;
     SnoopBot.policy_js_click := Ok_tt;
     SnoopBot.find_commit := Ok_tt;
     SnoopBot.commit_click := Ok_tt;
     SnoopBot.sleep_3 := Ok_tt;
     SnoopBot.current_url := url;
     SnoopBot.wait_continue := Ok_tt;
     SnoopBot.continue_click := Ok_tt;
     SnoopBot.wait_accordion := Ok_tt;
     SnoopBot.accordion_click := Ok_tt;
     SnoopBot.wait_reschedule := Ok_tt;
     SnoopBot.scroll_into_view := Ok_tt;
     SnoopBot.reschedule_click := Ok_tt;
     SnoopBot.reschedule_js_click := Ok_tt;
     SnoopBot.wait_facility := facility;
     SnoopBot.make_select := Ok_tt;
     SnoopBot.select_calgary := Ok_tt;
     SnoopBot.sleep_4 := Ok_tt;
     SnoopBot.find_busy :=
       match busy with Some _ => Ok_tt | None => Raise no_such_element end;
     SnoopBot.busy_is_displayed :=
       match busy with Some shown => Ok shown | None => Ok false end;
     SnoopBot.find_submit := Ok_tt;
     SnoopBot.get_attribute_disabled := Ok disabled;
     SnoopBot.smtp := smtp_ok;
     SnoopBot.driver_quit := quit |}.

Definition selenium_page (h : handle) (url : string) (busy : option bool)
    (disabled : option string) : SnoopBot.env :=
  selenium_site h url Ok_tt busy disabled Ok_tt.

Definition playwright_site (h p : handle) (url : string) (facility : result unit)
    (busy : option bool) (disabled : option string) (close : result unit)
    : VisaMonitor.env :=
  {| VisaMonitor.sync_playwright_start := Ok_tt;
     VisaMonitor.chromium_launch := Ok h;
     VisaMonitor.new_context := Ok_tt;
     VisaMonitor.new_page := Ok p;
     VisaMonitor.goto_sign_in := Ok_tt;
     VisaMonitor.wait_user_email := Ok_tt;
     VisaMonitor.fill_user_email := Ok_tt;
     VisaMonitor.fill_user_password := Ok_tt;
     VisaMonitor.wait_policy_confirmed := Ok_tt;
     VisaMonitor.policy_is_checked := Ok false;
     VisaMonitor.policy_label_click := Ok_tt;
     VisaMonitor.wait_500 := Ok_tt;
     VisaMonitor.commit_click := Ok_tt;
     VisaMonitor.wait_3000 := Ok_tt;
     VisaMonitor.page_url := Ok url;
     VisaMonitor.wait_continue := Ok_tt;
     VisaMonitor.continue_click := Ok_tt;
     VisaMonitor.wait_accordion := Ok_tt;
     VisaMonitor.accordion_click := Ok_tt;
     VisaMonitor.wait_reschedule := Ok_tt;
     VisaMonitor.scroll_into_view := Ok_tt;
     VisaMonitor.reschedule_click := Ok_tt;
     VisaMonitor.wait_facility := facility;
     VisaMonitor.select_calgary := Ok_tt;
     VisaMonitor.wait_4000 := Ok_tt;
     VisaMonitor.locate_busy := Ok_tt;
     VisaMonitor.busy_is_visible :=
       match busy with Some shown => Ok shown | None => Ok false end;
     VisaMonitor.locate_submit := Ok_tt;
     VisaMonitor.get_attribute_disabled := Ok disabled;
     VisaMonitor.smtp := smtp_ok;
     VisaMonitor.browser_close := close;
     VisaMonitor.playwright_stop := Ok_tt |}.

Definition playwright_page (h p : handle) (url : string) (busy : option bool)
    (disabled : option string) : VisaMonitor.env :=
  playwright_site h p url Ok_tt busy disabled Ok_tt.

Definition dashboard_url : string := "https://ais.usvisa-info.com/en-ca/niv/groups/12345678".

Definition some_credentials : Credentials :=
  {| VISA_EMAIL := Some "applicant@example.com";
     VISA_PASSWORD := Some "hunter2";
     NOTIFICATION_EMAIL := Some "me@example.com";
     SMTP_EMAIL := Some "bot@gmail.com";
     SMTP_APP_PASSWORD := Some "abcd efgh ijkl mnop" |}.

Definition no_credentials : Credentials :=
  {| VISA_EMAIL := None; VISA_PASSWORD := None; NOTIFICATION_EMAIL := None;
     SMTP_EMAIL := None; SMTP_APP_PASSWORD := None |}.

(** ** Particular sites *)

Definition selenium_monitor : SnoopBot.VisaAppointmentMonitor :=
  SnoopBot.init some_credentials.

Definition playwright_monitor : VisaMonitor.VisaAppointmentMonitor :=
  VisaMonitor.init some_credentials.

(** Logged in, no busy message, submit control enabled: a slot is open. *)
Definition selenium_open : SnoopBot.env :=
  selenium_page 1 dashboard_url None None.
Definition playwright_open_site : VisaMonitor.env :=
  playwright_page 1 2 dashboard_url None None.

(** Logged in, no busy message, submit control disabled: no slot. *)
Definition selenium_closed : SnoopBot.env :=
  selenium_page 1 dashboard_url None (Some "true").
Definition playwright_closed : VisaMonitor.env :=
  playwright_page 1 2 dashboard_url None (Some "disabled").

(** Logged in, and the busy message is shown over an enabled control. *)
Definition selenium_busy : SnoopBot.env :=
  selenium_page 1 dashboard_url (Some true) None.
Definition playwright_busy : VisaMonitor.env :=
  playwright_page 1 2 dashboard_url (Some true) None.

(** Logged in, and the location dropdown never appears. *)
Definition selenium_no_dropdown : SnoopBot.env :=
  selenium_site 1 dashboard_url (Raise timed_out) None None Ok_tt.
Definition playwright_no_dropdown : VisaMonitor.env :=
  playwright_site 1 2 dashboard_url (Raise playwright_timed_out) None None Ok_tt.

(** The form is submitted and the browser stays on the sign-in page; every
    element is found all the same, and the submit control is disabled. *)
Definition selenium_stuck : SnoopBot.env :=
  selenium_page 1 sign_in_url None (Some "true").
Definition playwright_stuck : VisaMonitor.env :=
  playwright_page 1 2 sign_in_url None (Some "true").

(** A slot is open, and releasing the browser fails. *)
Definition selenium_quit_fails : SnoopBot.env :=
  selenium_site 1 dashboard_url Ok_tt None None (Raise session_lost).
Definition playwright_close_fails : VisaMonitor.env :=
  playwright_site 1 2 dashboard_url Ok_tt None None (Raise session_lost).

(** The mail relay refuses the sender's password. *)
Definition smtp_refused : smtp_env :=
  {| build_message := Ok_tt; smtp_connect := Ok_tt; smtp_starttls := Ok_tt;
     smtp_login := Raise (mkExn Exception "(535, b'5.7.8 Username and Password not accepted')");
     smtp_send_message := Ok_tt; smtp_exit := Ok_tt |}.

(** ** Properties of computations *)

(** [quiet p P m]: [m] emits no event selected by [p], and a state that
    satisfies [P] before [m] satisfies it after, however [m] ends. *)
Definition quiet {St A} (p : event -> bool) (P : St -> Prop) (m : M (St:=St) A) : Prop :=
  forall s, count p (trace_of (m s)) = 0 /\ (P s -> P (state_of (m s))).

Definition quiet_handler {St A} (p : event -> bool) (P : St -> Prop)
    (h : exn -> option (M (St:=St) A)) : Prop :=
  forall e k, h e = Some k -> quiet p P k.

(** Every step of one [send_notification] returned. *)
Definition all_returned (env : smtp_env) : bool :=
  returned (build_message env) && returned (smtp_connect env)
  && returned (smtp_starttls env) && returned (smtp_login env)
  && returned (smtp_send_message env) && returned (smtp_exit env).

(** No step of one [send_notification] was cut short by something other
    than an ordinary error. *)
Definition all_ordinary (env : smtp_env) : bool :=
  ordinary (build_message env) && ordinary (smtp_connect env)
  && ordinary (smtp_starttls env) && ordinary (smtp_login env)
  && ordinary (smtp_send_message env) && ordinary (smtp_exit env).

(** The exceptions raised by the steps of one [send_notification]. *)
Definition raised_by {A} (r : result A) : list exn :=
  match r with Ok _ => [] | Raise e => [e] end.

Definition smtp_raised (env : smtp_env) : list exn :=
  raised_by (build_message env) ++ raised_by (smtp_connect env)
  ++ raised_by (smtp_starttls env) ++ raised_by (smtp_login env)
  ++ raised_by (smtp_send_message env) ++ raised_by (smtp_exit env).

(** What it means for the run of one [send_notification], started in state
    [s], to keep a delivery failure to itself: it returns, it leaves the
    monitor as it was, it connects and sends at most once, and when a step
    raised, its last act is to log one of the exceptions raised. *)
Definition contained {St} (env : smtp_env) (s : St)
    (run : list event * St * result unit) : Prop :=
  value_of run = Ok tt
  /\ state_of run = s
  /\ count is_connect (trace_of run) <= 1
  /\ count is_mail (trace_of run) <= 1
  /\ (all_returned env = false ->
      exists e, In e (smtp_raised env)
        /\ last (trace_of run) (Log INFO "")
           = Log ERROR ("Failed to send notification: " +++ str e)).

(** ** Vocabulary of the further properties *)

Definition is_stop (ev : event) : bool :=
  match ev with PlaywrightStopped => true | _ => false end.

(** The events by which a browser session begins and ends. *)
Definition session_event (ev : event) : bool :=
  match ev with
  | BrowserStarted _ | BrowserReleased _ | PlaywrightStopped => true
  | _ => false
  end.

(** Reads a trace for overlapping sessions.  [live] says whether a started
    browser is yet to be released; the result is [None] when a browser is
    started while another is live, and otherwise says whether one is live
    at the end. *)
Fixpoint sessions (live : bool) (tr : list event) : option bool :=
  match tr with
  | [] => Some live
  | BrowserStarted _ :: rest => if live then None else sessions true rest
  | BrowserReleased _ :: rest => sessions false rest
  | _ :: rest => sessions live rest
  end.

(** The method returned [True]. *)
Definition succeeded (r : result bool) : bool :=
  match r with Ok true => true | _ => false end.

(** [at_most n p m]: [m] emits at most [n] events selected by [p]. *)
Definition at_most {St A} (n : nat) (p : event -> bool) (m : M (St:=St) A) : Prop :=
  forall s, count p (trace_of (m s)) <= n.

(** [obeys view Q v m]: run from a state whose [view] is [v], [m] emits
    only events allowed by [Q v] and ends in a state with the same view. *)
Definition obeys {St V A} (view : St -> V) (Q : V -> event -> Prop) (v : V)
    (m : M (St:=St) A) : Prop :=
  forall s, view s = v ->
    Forall (Q v) (trace_of (m s)) /\ view (state_of (m s)) = v.

Definition obeys_handler {St V A} (view : St -> V) (Q : V -> event -> Prop) (v : V)
    (h : exn -> option (M (St:=St) A)) : Prop :=
  forall e k, h e = Some k -> obeys view Q v k.

(** The five values a monitor is built from. *)
Definition selenium_credentials (self : SnoopBot.VisaAppointmentMonitor) : Credentials :=
  {| VISA_EMAIL := SnoopBot.email self;
     VISA_PASSWORD := SnoopBot.password self;
     NOTIFICATION_EMAIL := SnoopBot.notification_email self;
     SMTP_EMAIL := SnoopBot.smtp_email self;
     SMTP_APP_PASSWORD := SnoopBot.smtp_password self |}.

Definition playwright_credentials (self : VisaMonitor.VisaAppointmentMonitor)
    : Credentials :=
  {| VISA_EMAIL := VisaMonitor.email self;
     VISA_PASSWORD := VisaMonitor.password self;
     NOTIFICATION_EMAIL := VisaMonitor.notification_email self;
     SMTP_EMAIL := VisaMonitor.smtp_email self;
     SMTP_APP_PASSWORD := VisaMonitor.smtp_password self |}.

(** The account e-mail goes into the e-mail field and the account password
    into the password field. *)
Definition typed_ok (c : Credentials) (field : string) (value : option string) : Prop :=
  (field = "user_email" /\ value = VISA_EMAIL c)
  \/ (field = "user_password" /\ value = VISA_PASSWORD c).

(** What one check of a monitor built from [c] may do with its
    credentials: type the account e-mail and password into their own
    fields, and send the availability notification from the sender address
    to the notification address. *)
Definition check_discreet (c : Credentials) (ev : event) : Prop :=
  match ev with
  | Typed field value => typed_ok c field value
  | MailSent sender recipient subject body =>
      sender = SMTP_EMAIL c /\ recipient = NOTIFICATION_EMAIL c
      /\ subject = available_subject /\ body = available_message
  | _ => True
  end.

(** The same for the continuous monitor, which also sends the start-up
    message. *)
Definition discreet (c : Credentials) (ev : event) : Prop :=
  match ev with
  | Typed field value => typed_ok c field value
  | MailSent sender recipient subject body =>
      sender = SMTP_EMAIL c /\ recipient = NOTIFICATION_EMAIL c
      /\ ((subject = started_subject /\ body = started_message)
          \/ (subject = available_subject /\ body = available_message))
  | _ => True
  end.

(** The events the three step methods emit: log lines, keystrokes and
    sleeps. *)
Definition step_event (ev : event) : bool :=
  match ev with
  | Log _ _ | Typed _ _ | Sleep _ => true
  | _ => false
  end.

(** *** The answers under which each step returns [True] *)

(** The policy checkbox lets the Selenium [login] go on: it is ticked, or
    gets ticked, or some call on it says the element does not exist. *)
Definition selenium_policy_passes (E : SnoopBot.env) : bool :=
  match SnoopBot.find_policy_confirmed E with
  | Ok _ =>
      match SnoopBot.policy_is_selected E with
      | Ok true => true
      | Ok false =>
          match SnoopBot.policy_js_click E with
          | Ok _ => true
          | Raise e => isinstance e NoSuchElementException
          end
      | Raise e => isinstance e NoSuchElementException
      end
  | Raise e => isinstance e NoSuchElementException
  end.

Definition selenium_login_passes (E : SnoopBot.env) : bool :=
  returned (SnoopBot.get_sign_in E) && returned (SnoopBot.wait_user_email E)
  && returned (SnoopBot.email_clear E) && returned (SnoopBot.email_send_keys E)
  && returned (SnoopBot.find_user_password E) && returned (SnoopBot.password_clear E)
  && returned (SnoopBot.password_send_keys E)
  && selenium_policy_passes E
  && returned (SnoopBot.find_commit E) && returned (SnoopBot.commit_click E)
  && returned (SnoopBot.sleep_3 E).

(** The location read after the form was submitted lets the Playwright
    [login] succeed: it has no [sign_in] in it, or it could not be read. *)
Definition playwright_location_passes (E : VisaMonitor.env) : bool :=
  match VisaMonitor.page_url E with
  | Ok url => negb (contains "sign_in" url)
  | Raise _ => true
  end.

Definition selenium_navigation_passes (E : SnoopBot.env) : bool :=
  returned (SnoopBot.wait_continue E) && returned (SnoopBot.continue_click E)
  && returned (SnoopBot.wait_accordion E) && returned (SnoopBot.accordion_click E)
  && returned (SnoopBot.wait_reschedule E) && returned (SnoopBot.scroll_into_view E)
  && (returned (SnoopBot.reschedule_click E)
      || returned (SnoopBot.reschedule_js_click E)).

Definition playwright_navigation_passes (E : VisaMonitor.env) : bool :=
  returned (VisaMonitor.wait_continue E) && returned (VisaMonitor.continue_click E)
  && returned (VisaMonitor.wait_accordion E) && returned (VisaMonitor.accordion_click E)
  && returned (VisaMonitor.wait_reschedule E) && returned (VisaMonitor.scroll_into_view E)
  && returned (VisaMonitor.reschedule_click E).

(** The busy message lets the Selenium probe go on to the submit control:
    it is found and not displayed, or a call on it says the element does
    not exist. *)
Definition selenium_busy_passes (E : SnoopBot.env) : bool :=
  match SnoopBot.find_busy E with
  | Ok _ =>
      match SnoopBot.busy_is_displayed E with
      | Ok shown => negb shown
      | Raise e => isinstance e NoSuchElementException
      end
  | Raise e => isinstance e NoSuchElementException
  end.

(** The submit control was found and its [disabled] attribute is falsy. *)
Definition selenium_submit_enabled (E : SnoopBot.env) : bool :=
  returned (SnoopBot.find_submit E)
  && match SnoopBot.get_attribute_disabled E with
     | Ok v => negb (truthy v)
     | Raise _ => false
     end.

Definition playwright_submit_enabled (E : VisaMonitor.env) : bool :=
  returned (VisaMonitor.locate_submit E)
  && match VisaMonitor.get_attribute_disabled E with
     | Ok v => negb (truthy v)
     | Raise _ => false
     end.

(** [balanced m]: in what [m] emits, read from a point where no browser
    is live, no browser is started while another is live, and none is live
    at the end. *)
Definition balanced {St A} (m : M (St:=St) A) : Prop :=
  forall s, sessions false (trace_of (m s)) = Some false.

(** The five steps of [send_notification] up to and including the sending
    returned. *)
Definition delivered (env : smtp_env) : bool :=
  returned (build_message env) && returned (smtp_connect env)
  && returned (smtp_starttls env) && returned (smtp_login env)
  && returned (smtp_send_message env).

(** ** Sites on which one call fails *)

Definition stale : exn :=
  mkExn StaleElementReferenceException "stale element reference".
Definition interrupt : exn := mkExn KeyboardInterrupt "".
Definition no_browser : exn := mkExn Exception "chrome not reachable".

(** The answer of call number [k] on a site whose call number [fault]
    raises [e] and whose other calls return. *)
Definition faulty {A} (fault k : nat) (e : exn) (a : A) : result A :=
  if Nat.eqb fault k then Raise e else Ok a.

(** The open site of [selenium_open], with the busy message on the page
    and hidden, where the call numbered [fault] raises [e]; the calls are
    numbered in program order. *)
Definition selenium_fault (fault : nat) (e : exn) : SnoopBot.env :=
  {| SnoopBot.webdriver_Chrome := faulty fault 0 e 1;
     SnoopBot.execute_cdp_cmd := faulty fault 1 e tt;
     SnoopBot.hide_webdriver := faulty fault 2 e tt;
     SnoopBot.implicitly_wait := faulty fault 3 e tt;
     SnoopBot.get_sign_in := faulty fault 4 e tt;
     SnoopBot.wait_user_email := faulty fault 5 e tt;
     SnoopBot.email_clear := faulty fault 6 e tt;
     SnoopBot.email_send_keys := faulty fault 7 e tt;
     SnoopBot.find_user_password := faulty fault 8 e tt;
     SnoopBot.password_clear := faulty fault 9 e tt;
     SnoopBot.password_send_keys := faulty fault 10 e tt;
     SnoopBot.find_policy_confirmed := faulty fault 11 e tt;
     SnoopBot.policy_is_selected := faulty fault 12 e false;
     SnoopBot.policy_js_click := faulty fault 13 e tt;
     SnoopBot.find_commit := faulty fault 14 e tt;
     SnoopBot.commit_click := faulty fault 15 e tt;
     SnoopBot.sleep_3 := faulty fault 16 e tt;
     SnoopBot.current_url := dashboard_url;
     SnoopBot.wait_continue := faulty fault 17 e tt;
     SnoopBot.continue_click := faulty fault 18 e tt;
     SnoopBot.wait_accordion := faulty fault 19 e tt;
     SnoopBot.accordion_click := faulty fault 20 e tt;
     SnoopBot.wait_reschedule := faulty fault 21 e tt;
     SnoopBot.scroll_into_view := faulty fault 22 e tt;
     SnoopBot.reschedule_click := faulty fault 23 e tt;
     SnoopBot.reschedule_js_click := faulty fault 24 e tt;
     SnoopBot.wait_facility := faulty fault 25 e tt;
     SnoopBot.make_select := faulty fault 26 e tt;
     SnoopBot.select_calgary := faulty fault 27 e tt;
     SnoopBot.sleep_4 := faulty fault 28 e tt;
     SnoopBot.find_busy := faulty fault 29 e tt;
     SnoopBot.busy_is_displayed := faulty fault 30 e false;
     SnoopBot.find_submit := faulty fault 31 e tt;
     SnoopBot.get_attribute_disabled := faulty fault 32 e None;
     SnoopBot.smtp := smtp_ok;
     SnoopBot.driver_quit := faulty fault 33 e tt |}.

(** The same for the Playwright variant. *)
Definition playwright_fault (fault : nat) (e : exn) : VisaMonitor.env :=
  {| VisaMonitor.sync_playwright_start := faulty fault 0 e tt;
     VisaMonitor.chromium_launch := faulty fault 1 e 1;
     VisaMonitor.new_context := faulty fault 2 e tt;
     VisaMonitor.new_page := faulty fault 3 e 2;
     VisaMonitor.goto_sign_in := faulty fault 4 e tt;
     VisaMonitor.wait_user_email := faulty fault 5 e tt;
     VisaMonitor.fill_user_email := faulty fault 6 e tt;
     VisaMonitor.fill_user_password := faulty fault 7 e tt;
     VisaMonitor.wait_policy_confirmed := faulty fault 8 e tt;
     VisaMonitor.policy_is_checked := faulty fault 9 e false;
     VisaMonitor.policy_label_click := faulty fault 10 e tt;
     VisaMonitor.wait_500 := faulty fault 11 e tt;
     VisaMonitor.commit_click := faulty fault 12 e tt;
     VisaMonitor.wait_3000 := faulty fault 13 e tt;
     VisaMonitor.page_url := faulty fault 14 e dashboard_url;
     VisaMonitor.wait_continue := faulty fault 15 e tt;
     VisaMonitor.continue_click := faulty fault 16 e tt;
     VisaMonitor.wait_accordion := faulty fault 17 e tt;
     VisaMonitor.accordion_click := faulty fault 18 e tt;
     VisaMonitor.wait_reschedule := faulty fault 19 e tt;
     VisaMonitor.scroll_into_view := faulty fault 20 e tt;
     VisaMonitor.reschedule_click := faulty fault 21 e tt;
     VisaMonitor.wait_facility := faulty fault 22 e tt;
     VisaMonitor.select_calgary := faulty fault 23 e tt;
     VisaMonitor.wait_4000 := faulty fault 24 e tt;
     VisaMonitor.locate_busy := faulty fault 25 e tt;
     VisaMonitor.busy_is_visible := faulty fault 26 e false;
     VisaMonitor.locate_submit := faulty fault 27 e tt;
     VisaMonitor.get_attribute_disabled := faulty fault 28 e None;
     VisaMonitor.smtp := smtp_ok;
     VisaMonitor.browser_close := faulty fault 29 e tt;
     VisaMonitor.playwright_stop := faulty fault 30 e tt |}.

(** What [time.sleep] raises for a negative interval. *)
Definition negative_sleep : exn := mkExn Exception "sleep length must be non-negative".

(** An address that is not the sign-in page and has [sign_in] in it. *)
Definition forgot_password_url : string :=
  "https://ais.usvisa-info.com/en-ca/niv/users/password/new?from=sign_in".

(** * Facts *)

(** ** The monad *)

Lemma count_app (p : event -> bool) (t1 t2 : list event) :
  count p (t1 ++ t2) = count p t1 + count p t2.
Proof. unfold count. rewrite filter_app, length_app. reflexivity. Qed.

(** Projects the components out of a run that is a literal triple. *)
Ltac projs := cbn [trace_of state_of value_of fst snd] in *.

Section MonadFacts.
Context {St : Type}.
Variable p : event -> bool.
Variable P : St -> Prop.

Lemma bind_ok {A B} (m : M (St:=St) A) (f : A -> M B) s t s1 a :
  m s = (t, s1, Ok a) ->
  bind m f s = (t ++ trace_of (f a s1), state_of (f a s1), value_of (f a s1)).
Proof.
  intros H. unfold bind. rewrite H.
  destruct (f a s1) as [[t' s2] r]. reflexivity.
Qed.

Lemma bind_raise {A B} (m : M (St:=St) A) (f : A -> M B) s t s1 e :
  m s = (t, s1, Raise e) -> bind m f s = (t, s1, Raise e).
Proof. intros H. unfold bind. rewrite H. reflexivity. Qed.

Lemma quiet_ret {A} (a : A) : quiet p P (ret a).
Proof. intros s. split; [reflexivity | trivial]. Qed.

Lemma quiet_call {A} (r : result A) : quiet p P (call r).
Proof. intros s. split; [reflexivity | trivial]. Qed.

Lemma quiet_gets {A} (f : St -> A) : quiet p P (gets f).
Proof. intros s. split; [reflexivity | trivial]. Qed.

Lemma quiet_emit (ev : event) : p ev = false -> quiet p P (emit ev).
Proof.
  intros H s. split; [| trivial].
  unfold count. simpl. rewrite H. reflexivity.
Qed.

Lemma quiet_modify (f : St -> St) :
  (forall s, P s -> P (f s)) -> quiet p P (modify f).
Proof. intros H s. split; [reflexivity | apply H]. Qed.

Lemma quiet_bind {A B} (m : M (St:=St) A) (f : A -> M B) :
  quiet p P m -> (forall a, quiet p P (f a)) -> quiet p P (bind m f).
Proof.
  intros Hm Hf s. specialize (Hm s). unfold bind.
  destruct (m s) as [[t s1] [a | e]]; projs; [| exact Hm].
  specialize (Hf a s1). destruct (f a s1) as [[t' s2] r]. projs.
  rewrite count_app. destruct Hm as [-> Hm], Hf as [-> Hf]. auto.
Qed.

Lemma quiet_try_except {A} (m : M (St:=St) A) h :
  quiet p P m -> quiet_handler p P h -> quiet p P (try_except m h).
Proof.
  intros Hm Hh s. specialize (Hm s). unfold try_except.
  destruct (m s) as [[t s1] [a | e]]; projs; [exact Hm |].
  destruct (h e) as [k |] eqn:Hk; [| exact Hm].
  specialize (Hh e k Hk s1). destruct (k s1) as [[t' s2] r]. projs.
  rewrite count_app. destruct Hm as [-> Hm], Hh as [-> Hh]. auto.
Qed.

Lemma quiet_try_finally {A} (m : M (St:=St) A) fin :
  quiet p P m -> quiet p P fin -> quiet p P (try_finally m fin).
Proof.
  intros Hm Hf s. specialize (Hm s). unfold try_finally.
  destruct (m s) as [[t s1] r]. specialize (Hf s1). cbn iota beta.
  destruct (fin s1) as [[t' s2] [[] | e]]; projs;
    rewrite count_app; destruct Hm as [-> Hm], Hf as [-> Hf]; auto.
Qed.

Lemma quiet_with {A} enter (body : M (St:=St) A) leave :
  quiet p P enter -> quiet p P body -> quiet p P leave ->
  quiet p P (with_ enter body leave).
Proof.
  intros He Hb Hl. unfold with_. apply quiet_bind; [exact He |].
  intros _. apply quiet_try_finally; assumption.
Qed.

Lemma quiet_except {A} c (k : exn -> M (St:=St) A) :
  (forall e, quiet p P (k e)) -> quiet_handler p P (except c k).
Proof.
  intros Hk e k'. unfold except. destruct (isinstance e c); [| discriminate].
  intros [= <-]. apply Hk.
Qed.

Lemma quiet_except_all {A} (k : M (St:=St) A) :
  quiet p P k -> quiet_handler p P (except_all k).
Proof. intros Hk e k' [= <-]. exact Hk. Qed.

Lemma quiet_orelse {A} (h1 h2 : exn -> option (M (St:=St) A)) :
  quiet_handler p P h1 -> quiet_handler p P h2 -> quiet_handler p P (orelse h1 h2).
Proof.
  intros H1 H2 e k. unfold orelse. destruct (h1 e) as [k1 |] eqn:Hk1.
  - intros [= <-]. exact (H1 e k1 Hk1).
  - apply H2.
Qed.

End MonadFacts.

(** Breaks a computation down along its structure. *)
Ltac quiet_step :=
  first
    [ apply quiet_ret
    | apply quiet_call
    | apply quiet_gets
    | apply quiet_emit; reflexivity
    | apply quiet_bind; [| intros ?]
    | apply quiet_try_except
    | apply quiet_try_finally
    | apply quiet_with
    | apply quiet_except; intros ?
    | apply quiet_except_all
    | apply quiet_orelse
    | match goal with
      | |- quiet _ _ (if ?b then _ else _) => destruct b
      | |- quiet _ _ (match ?o with Some _ => _ | None => _ end) => destruct o
      end ].

Ltac quiet_all := repeat quiet_step.

(** ** [send_notification] *)

Section SendNotificationFacts.
Context {St : Type}.
Variables (get_smtp_email get_notification_email : St -> option string).

Local Notation "'send'" := (send_notification get_smtp_email get_notification_email).

Ltac smtp_cases :=
  repeat match goal with
    | H : isinstance ?e Exception = true |- context [isinstance ?e Exception] =>
        rewrite H
    | H : context [ordinary ?r] |- _ =>
        is_var r; destruct r as [[] | ?]; cbn in H |- *
    | H : _ && _ = true |- _ => apply andb_true_iff in H; destruct H
    end.

(** With no step cut short by anything but an ordinary error, the method
    returns and the monitor object is as before. *)
Lemma send_notification_returns env subject message (s : St) :
  all_ordinary env = true ->
  value_of (send env subject message s) = Ok tt
  /\ state_of (send env subject message s) = s.
Proof.
  intros H. destruct env as [b c t l m x]. unfold all_ordinary in H. cbn in H.
  unfold send_notification, send_notification_body, with_, try_except,
    try_finally, bind, call, emit, gets, info, error, except, ret.
  cbn. smtp_cases; cbn; smtp_cases; auto.
Qed.

Lemma send_notification_contained env subject message (s : St) :
  all_ordinary env = true ->
  contained env s (send env subject message s).
Proof.
  intros H. destruct (send_notification_returns env subject message s H) as [Hv Hs].
  split; [exact Hv |]. split; [exact Hs |]. clear Hv Hs.
  destruct env as [b c t l m x]. unfold all_ordinary in H. cbn in H.
  unfold send_notification, send_notification_body, with_, try_except,
    try_finally, bind, call, emit, gets, info, error, except, ret,
    all_returned, smtp_raised.
  cbn. smtp_cases; cbn; smtp_cases; unfold count; cbn;
    (split; [lia |]); (split; [lia |]);
    intros Hr; try discriminate Hr;
    (eexists; split; [| reflexivity]); cbn; auto 8.
Qed.

(** When every step returns, one mail is sent and nothing is logged as an
    error. *)
Lemma send_notification_delivers env subject message (s : St) :
  all_returned env = true ->
  trace_of (send env subject message s)
  = [SmtpConnect;
     MailSent (get_smtp_email s) (get_notification_email s) subject message;
     Log INFO ("Notification sent: " +++ subject)].
Proof.
  destruct env as [[[] | ?] [[] | ?] [[] | ?] [[] | ?] [[] | ?] [[] | ?]];
    cbn; intros H; try discriminate H.
  reflexivity.
Qed.

End SendNotificationFacts.

(** ** Running a method against what the environment is known to answer *)

(** Turns what is known of the environment into the shape of its fields. *)
Ltac hyp_cases :=
  repeat match goal with
    | H : false = true |- _ => discriminate H
    | H : true = false |- _ => discriminate H
    | H : _ /\ _ |- _ => destruct H
    | H : _ && _ = true |- _ => apply andb_true_iff in H; destruct H
    | H : ?x = Ok _ |- _ => is_var x; subst x
    | H : ?x = Raise _ |- _ => is_var x; subst x
    | H : context [returned ?r] |- _ => is_var r; destruct r; cbn in H
    | H : context [ordinary ?r] |- _ => is_var r; destruct r; cbn in H
    | H : context [match ?r with _ => _ end] |- _ => is_var r; destruct r; cbn in H
    end.

(** Rewrites with the class tests that are known. *)
Ltac known_classes :=
  repeat match goal with
    | H : isinstance ?e ?c = _ |- context [isinstance ?e ?c] => rewrite H
    end.

Ltac unfold_monad :=
  unfold try_except, try_finally, with_, bind, call, emit, gets, modify,
    info, warning, error, except, except_all, orelse, ret in *.

(** ** The probe *)

Lemma selenium_probe_busy E self :
  SnoopBot.reaches_inspection E = true ->
  SnoopBot.busy_shown E = true ->
  value_of (SnoopBot.check_reschedule_availability_body E self) = Ok false.
Proof.
  unfold SnoopBot.reaches_inspection, SnoopBot.busy_shown.
  destruct E; cbn. intros H1 H2. hyp_cases.
  reflexivity.
Qed.

Lemma selenium_probe_submit E self v :
  SnoopBot.reaches_inspection E = true ->
  SnoopBot.busy_not_shown E = true ->
  SnoopBot.submit_reads E v ->
  value_of (SnoopBot.check_reschedule_availability_body E self)
  = Ok (negb (truthy v)).
Proof.
  unfold SnoopBot.reaches_inspection, SnoopBot.busy_not_shown, SnoopBot.submit_reads.
  destruct E; cbn. intros H1 H2 H3. hyp_cases;
    unfold SnoopBot.check_reschedule_availability_body, SnoopBot.busy_check;
    unfold_monad; cbn; known_classes; cbn;
    destruct (truthy v); reflexivity.
Qed.

Lemma playwright_probe_busy E self :
  VisaMonitor.reaches_inspection E = true ->
  VisaMonitor.busy_shown E = true ->
  value_of (VisaMonitor.check_reschedule_availability_body E self) = Ok false.
Proof.
  unfold VisaMonitor.reaches_inspection, VisaMonitor.busy_shown.
  destruct E; cbn. intros H1 H2. hyp_cases.
  reflexivity.
Qed.

Lemma playwright_probe_submit E self v :
  VisaMonitor.reaches_inspection E = true ->
  VisaMonitor.busy_shown E = false ->
  VisaMonitor.submit_reads E v ->
  value_of (VisaMonitor.check_reschedule_availability_body E self)
  = Ok (negb (truthy v)).
Proof.
  unfold VisaMonitor.reaches_inspection, VisaMonitor.busy_shown,
    VisaMonitor.submit_reads.
  destruct E; cbn. intros H1 H2 H3. hyp_cases;
    unfold VisaMonitor.check_reschedule_availability_body, VisaMonitor.busy_check;
    unfold_monad; cbn;
    repeat match goal with
      | |- context [match ?r with _ => _ end] => is_var r; destruct r; cbn
      end;
    try discriminate;
    destruct (truthy v); reflexivity.
Qed.

(** The method returns the value of its body, and [False] when the body
    raised an ordinary error. *)
Lemma selenium_probe_returns E self :
  value_of (SnoopBot.check_reschedule_availability E self)
  = match value_of (SnoopBot.check_reschedule_availability_body E self) with
    | Ok b => Ok b
    | Raise e => if isinstance e Exception then Ok false else Raise e
    end.
Proof.
  unfold SnoopBot.check_reschedule_availability, try_except.
  destruct (SnoopBot.check_reschedule_availability_body E self) as [[t s] [b | e]];
    [reflexivity |].
  cbn. unfold except. destruct (isinstance e Exception); reflexivity.
Qed.

Lemma playwright_probe_returns E self :
  value_of (VisaMonitor.check_reschedule_availability E self)
  = match value_of (VisaMonitor.check_reschedule_availability_body E self) with
    | Ok b => Ok b
    | Raise e => if isinstance e Exception then Ok false else Raise e
    end.
Proof.
  unfold VisaMonitor.check_reschedule_availability, try_except.
  destruct (VisaMonitor.check_reschedule_availability_body E self) as [[t s] [b | e]];
    [reflexivity |].
  cbn. unfold except. destruct (isinstance e Exception); reflexivity.
Qed.

(** ** [login] *)

(** The Selenium variant answers [True] once the form was submitted,
    wherever the browser then is. *)
Lemma selenium_login_submitted E self :
  SnoopBot.submission_completes E = true ->
  value_of (SnoopBot.login E self) = Ok true.
Proof.
  unfold SnoopBot.submission_completes.
  destruct E; cbn. intros H. hyp_cases;
    unfold SnoopBot.login; unfold_monad; cbn; known_classes; reflexivity.
Qed.

(** The Playwright variant looks at the location: it answers [False] when
    the location still has [sign_in] in it. *)
Lemma playwright_login_location E self url :
  VisaMonitor.submission_completes E = true ->
  VisaMonitor.page_url E = Ok url ->
  value_of (VisaMonitor.login E self) = Ok (negb (contains "sign_in" url)).
Proof.
  unfold VisaMonitor.submission_completes, VisaMonitor.policy_passes.
  destruct E; cbn. intros H Hu. hyp_cases;
    unfold VisaMonitor.login, VisaMonitor.accept_policy, VisaMonitor.verify_login;
    unfold_monad; cbn; known_classes;
    repeat match goal with
      | |- context [isinstance ?e PlaywrightTimeout] =>
          destruct (isinstance e PlaywrightTimeout); cbn
      end;
    known_classes; cbn;
    destruct (contains "sign_in" url); reflexivity.
Qed.

(** ** The browser is started and released by [check_appointments] only *)

Lemma count_cons (p : event -> bool) (ev : event) (t : list event) :
  count p (ev :: t) = (if p ev then 1 else 0) + count p t.
Proof. unfold count. simpl. destruct (p ev); reflexivity. Qed.

Ltac unfold_selenium :=
  unfold SnoopBot.check_pipeline, SnoopBot.login, SnoopBot.navigate_to_reschedule,
    SnoopBot.check_reschedule_availability,
    SnoopBot.check_reschedule_availability_body, SnoopBot.busy_check,
    SnoopBot.send_notification, send_notification, send_notification_body,
    info, warning, error.

Ltac unfold_playwright :=
  unfold VisaMonitor.check_pipeline, VisaMonitor.login, VisaMonitor.accept_policy,
    VisaMonitor.verify_login, VisaMonitor.navigate_to_reschedule,
    VisaMonitor.check_reschedule_availability,
    VisaMonitor.check_reschedule_availability_body, VisaMonitor.busy_check,
    VisaMonitor.send_notification, send_notification, send_notification_body,
    info, warning, error.

(** From [login] on, a check neither releases a browser nor touches
    [self.driver]. *)
Lemma selenium_pipeline_quiet E h :
  quiet is_release (fun s => SnoopBot.driver s = Some h) (SnoopBot.check_pipeline E).
Proof. unfold_selenium. quiet_all. Qed.

Lemma playwright_pipeline_quiet E h :
  quiet is_release (fun s => VisaMonitor.browser s = Some h)
    (VisaMonitor.check_pipeline E).
Proof. unfold_playwright. quiet_all. Qed.

Lemma selenium_setup E s h :
  SnoopBot.webdriver_Chrome E = Ok h ->
  exists r, SnoopBot.setup_driver E s = ([BrowserStarted h], SnoopBot.set_driver h s, r).
Proof.
  destruct E; cbn. intros ->. unfold SnoopBot.setup_driver. unfold_monad. cbn.
  repeat match goal with
    | |- context [match ?r with _ => _ end] => is_var r; destruct r; cbn
    end; eexists; reflexivity.
Qed.

Lemma playwright_open E s h :
  VisaMonitor.sync_playwright_start E = Ok tt ->
  VisaMonitor.chromium_launch E = Ok h ->
  exists s' r, VisaMonitor.open_browser E s = ([BrowserStarted h], s', r)
    /\ VisaMonitor.browser s' = Some h.
Proof.
  destruct E; cbn. intros -> ->. unfold VisaMonitor.open_browser. unfold_monad. cbn.
  repeat match goal with
    | |- context [match ?r with _ => _ end] => is_var r; destruct r; cbn
    end; eexists; eexists; (split; [reflexivity |]); reflexivity.
Qed.

(** The [try/except] of [check_appointments], after a browser [h] was
    started: [h] is in [self.driver] at the end and was not released. *)
Lemma selenium_guarded_body E s h :
  SnoopBot.webdriver_Chrome E = Ok h ->
  exists t s' r,
    try_except (SnoopBot.check_appointments_body E)
      (except Exception (fun e => error ("Check failed: " +++ str e) ;; ret false)) s
    = (BrowserStarted h :: t, s', r)
    /\ count is_release t = 0
    /\ SnoopBot.driver s' = Some h.
Proof.
  intros H. destruct (selenium_setup E s h H) as [r Hr].
  unfold try_except, SnoopBot.check_appointments_body, bind. rewrite Hr.
  destruct r as [[] | e].
  - destruct (selenium_pipeline_quiet E h (SnoopBot.set_driver h s)) as [Hc Hp].
    specialize (Hp eq_refl).
    destruct (SnoopBot.check_pipeline E (SnoopBot.set_driver h s)) as [[t' s2] [b | e]];
      projs.
    + exists t', s2, (Ok b). auto.
    + unfold except. destruct (isinstance e Exception); cbn.
      * eexists _, _, _. split; [reflexivity |]. rewrite count_app, Hc. auto.
      * eexists _, _, _. split; [reflexivity |]. auto.
  - unfold except. destruct (isinstance e Exception); cbn;
      eexists _, _, _; (split; [reflexivity |]); auto.
Qed.

Lemma playwright_guarded_body E s h :
  VisaMonitor.sync_playwright_start E = Ok tt ->
  VisaMonitor.chromium_launch E = Ok h ->
  exists t s' r,
    try_except (VisaMonitor.check_appointments_body E)
      (except Exception (fun e => error ("Check failed: " +++ str e) ;; ret false)) s
    = (BrowserStarted h :: t, s', r)
    /\ count is_release t = 0
    /\ VisaMonitor.browser s' = Some h.
Proof.
  intros H0 H. destruct (playwright_open E s h H0 H) as (s1 & r & Hr & Hb).
  unfold try_except, VisaMonitor.check_appointments_body, bind. rewrite Hr.
  destruct r as [[] | e].
  - destruct (playwright_pipeline_quiet E h s1) as [Hc Hp].
    specialize (Hp Hb).
    destruct (VisaMonitor.check_pipeline E s1) as [[t' s2] [b | e]]; projs.
    + exists t', s2, (Ok b). auto.
    + unfold except. destruct (isinstance e Exception); cbn.
      * eexists _, _, _. split; [reflexivity |]. rewrite count_app, Hc. auto.
      * eexists _, _, _. split; [reflexivity |]. auto.
  - unfold except. destruct (isinstance e Exception); cbn;
      eexists _, _, _; (split; [reflexivity |]); auto.
Qed.

Lemma selenium_released_once E self h :
  SnoopBot.webdriver_Chrome E = Ok h ->
  exists before after,
    trace_of (SnoopBot.check_appointments E self)
    = before ++ BrowserReleased h :: after
    /\ In (BrowserStarted h) before
    /\ count is_release before = 0
    /\ count is_release after = 0.
Proof.
  intros H. destruct (selenium_guarded_body E self h H) as (t & s' & r & Hrun & Hc & Hd).
  unfold SnoopBot.check_appointments, try_finally. rewrite Hrun.
  unfold SnoopBot.release. unfold_monad. rewrite Hd. cbn.
  exists (BrowserStarted h :: t), [].
  destruct (SnoopBot.driver_quit E) as [[] | e]; cbn;
    (split; [reflexivity |]); (split; [now left |]);
    rewrite count_cons, Hc; auto.
Qed.

Lemma playwright_released_once E self h :
  VisaMonitor.sync_playwright_start E = Ok tt ->
  VisaMonitor.chromium_launch E = Ok h ->
  exists before after,
    trace_of (VisaMonitor.check_appointments E self)
    = before ++ BrowserReleased h :: after
    /\ In (BrowserStarted h) before
    /\ count is_release before = 0
    /\ count is_release after = 0.
Proof.
  intros H0 H.
  destruct (playwright_guarded_body E self h H0 H) as (t & s' & r & Hrun & Hc & Hd).
  unfold VisaMonitor.check_appointments, try_finally. rewrite Hrun.
  unfold VisaMonitor.release. unfold_monad. rewrite Hd, H0. cbn.
  exists (BrowserStarted h :: t).
  destruct (VisaMonitor.browser_close E) as [[] | e]; cbn;
    [destruct (VisaMonitor.playwright_stop E) as [[] | e]; cbn |];
    eexists; (split; [reflexivity |]); (split; [now left |]);
    rewrite count_cons, Hc; auto.
Qed.

(** ** What [check_appointments] returns *)

Lemma selenium_release_returns E s :
  returned (SnoopBot.driver_quit E) = true ->
  value_of (SnoopBot.release E s) = Ok tt.
Proof.
  unfold SnoopBot.release. unfold_monad.
  destruct (SnoopBot.driver s); destruct (SnoopBot.driver_quit E) as [[] | e];
    cbn; intros H; try discriminate H; reflexivity.
Qed.

Lemma playwright_release_returns E s :
  returned (VisaMonitor.browser_close E) = true ->
  returned (VisaMonitor.playwright_stop E) = true ->
  value_of (VisaMonitor.release E s) = Ok tt.
Proof.
  unfold VisaMonitor.release. unfold_monad.
  destruct (VisaMonitor.browser s); destruct (VisaMonitor.browser_close E) as [[] | e];
    destruct (VisaMonitor.playwright_stop E) as [[] | e'];
    destruct (VisaMonitor.sync_playwright_start E);
    cbn; intros H H'; try discriminate H; try discriminate H'; reflexivity.
Qed.

(** [try: ... finally: fin] returns what its body returns when [fin]
    returns. *)
Lemma try_finally_value {St A} (m : M (St:=St) A) (fin : M unit) s :
  value_of (fin (state_of (m s))) = Ok tt ->
  value_of (try_finally m fin s) = value_of (m s).
Proof.
  unfold try_finally. destruct (m s) as [[t s1] r]. projs.
  destruct (fin s1) as [[t' s2] [[] | e]]; projs; intros H;
    [reflexivity | discriminate H].
Qed.

Lemma selenium_pipeline_value E s0 t1 s1 t2 s2 t3 s3 available :
  SnoopBot.login E s0 = (t1, s1, Ok true) ->
  SnoopBot.navigate_to_reschedule E s1 = (t2, s2, Ok true) ->
  SnoopBot.check_reschedule_availability E s2 = (t3, s3, Ok available) ->
  (available = false -> all_ordinary (SnoopBot.smtp E) = true) ->
  value_of (SnoopBot.check_pipeline E s0) = Ok (negb available).
Proof.
  intros H1 H2 H3 Hm. unfold SnoopBot.check_pipeline, bind.
  rewrite H1. cbn. rewrite H2. cbn. rewrite H3.
  destruct available; cbn; [reflexivity |].
  destruct (send_notification_returns SnoopBot.smtp_email SnoopBot.notification_email
              (SnoopBot.smtp E) available_subject available_message s3 (Hm eq_refl))
    as [Hv _].
  unfold SnoopBot.send_notification.
  destruct (send_notification _ _ _ _ _ s3) as [[t4 s4] r4]. projs. subst r4.
  reflexivity.
Qed.

Lemma playwright_pipeline_value E s0 t1 s1 t2 s2 t3 s3 available :
  VisaMonitor.login E s0 = (t1, s1, Ok true) ->
  VisaMonitor.navigate_to_reschedule E s1 = (t2, s2, Ok true) ->
  VisaMonitor.check_reschedule_availability E s2 = (t3, s3, Ok available) ->
  (available = false -> all_ordinary (VisaMonitor.smtp E) = true) ->
  value_of (VisaMonitor.check_pipeline E s0) = Ok (negb available).
Proof.
  intros H1 H2 H3 Hm. unfold VisaMonitor.check_pipeline, bind.
  rewrite H1. cbn. rewrite H2. cbn. rewrite H3.
  destruct available; cbn; [reflexivity |].
  destruct (send_notification_returns VisaMonitor.smtp_email
              VisaMonitor.notification_email
              (VisaMonitor.smtp E) available_subject available_message s3 (Hm eq_refl))
    as [Hv _].
  unfold VisaMonitor.send_notification.
  destruct (send_notification _ _ _ _ _ s3) as [[t4 s4] r4]. projs. subst r4.
  reflexivity.
Qed.

Lemma try_except_value_ok {St A} (m : M (St:=St) A) h s a :
  value_of (m s) = Ok a -> value_of (try_except m h s) = Ok a.
Proof.
  unfold try_except. destruct (m s) as [[t s1] [a' | e]]; projs; intros H;
    [exact H | discriminate H].
Qed.

Lemma bind_value {St A B} (m : M (St:=St) A) (f : A -> M B) s t s1 a :
  m s = (t, s1, Ok a) -> value_of (bind m f s) = value_of (f a s1).
Proof. intros H. rewrite (bind_ok m f s t s1 a H). reflexivity. Qed.

(** ** The continuous loop *)

Lemma ordinary_not_interrupt e :
  isinstance e Exception = true -> isinstance e KeyboardInterrupt = false.
Proof. destruct e as [[] msg]; cbv; congruence. Qed.

Section LoopFacts.
Context {St check_env : Type}.
Variable check : check_env -> M (St:=St) bool.
Variable check_interval : Z.
Variable envs : nat -> iter_env check_env.

Local Notation "'turn'" := (loop_turn check check_interval envs).
Local Notation "'loop'" := (monitor_loop check check_interval envs).

(** A turn whose check raises an ordinary error: the error is logged, the
    loop sleeps once, and the turn ends as that sleep ends. *)
Lemma loop_turn_on_error i s tc s1 e :
  check (during_check (envs i)) s = (tc, s1, Raise e) ->
  isinstance e Exception = true ->
  turn i s
  = (Log INFO "Starting appointment check..."
       :: tc ++ [Log ERROR ("Error in monitor loop: " +++ str e);
                 Sleep check_interval],
     s1,
     match sleep_after_error (envs i) with
     | Ok _ => Ok true
     | Raise e' => Raise e'
     end).
Proof.
  intros Hc He. pose proof (ordinary_not_interrupt e He) as Hk.
  unfold loop_turn. unfold_monad. cbn. rewrite Hc. cbn.
  rewrite Hk, He.
  destruct (sleep_after_error (envs i)) as [[] | e']; reflexivity.
Qed.

(** A turn that asks for another one is followed by the next turn. *)
Lemma monitor_loop_next turns i s t s1 :
  turn i s = (t, s1, Ok true) ->
  trace_of (loop (S turns) i s) = t ++ trace_of (loop turns (S i) s1).
Proof.
  intros H. cbn [monitor_loop].
  rewrite (bind_ok _ _ _ _ _ _ H). reflexivity.
Qed.

(** Every turn begins by announcing and running the check. *)
Lemma loop_turn_starts_check i s :
  exists rest,
    trace_of (turn i s)
    = Log INFO "Starting appointment check..."
        :: trace_of (check (during_check (envs i)) s) ++ rest.
Proof.
  unfold loop_turn. unfold_monad. cbn.
  destruct (check (during_check (envs i)) s) as [[tc s1] [b | e]]; cbn.
  - destruct (sleep_after_check (envs i)) as [[] | e]; cbn.
    + eexists. reflexivity.
    + destruct (isinstance e KeyboardInterrupt); cbn.
      * eexists. rewrite <- app_assoc. reflexivity.
      * destruct (isinstance e Exception); cbn.
        -- destruct (sleep_after_error (envs i)) as [[] | e'];
             eexists; rewrite <- app_assoc; reflexivity.
        -- eexists. reflexivity.
  - destruct (isinstance e KeyboardInterrupt); cbn.
    + eexists. reflexivity.
    + destruct (isinstance e Exception); cbn.
      * destruct (sleep_after_error (envs i)) as [[] | e']; eexists; reflexivity.
      * exists []. rewrite app_nil_r. reflexivity.
Qed.

Lemma monitor_loop_starts_check turns i s :
  exists rest,
    trace_of (loop (S turns) i s)
    = Log INFO "Starting appointment check..."
        :: trace_of (check (during_check (envs i)) s) ++ rest.
Proof.
  destruct (loop_turn_starts_check i s) as [rest Hrest].
  cbn [monitor_loop]. unfold bind.
  destruct (turn i s) as [[t s1] [again | e]]; projs; subst t.
  - destruct (if again then _ else _) as [[t' s2] r] eqn:Hk. projs.
    exists (rest ++ t'). cbn. rewrite <- app_assoc. reflexivity.
  - exists rest. reflexivity.
Qed.

(** The claim of the loop, for a check given as a parameter. *)
Lemma loop_survives_check_error turns i s tc s1 e :
  check (during_check (envs i)) s = (tc, s1, Raise e) ->
  isinstance e Exception = true ->
  sleep_after_error (envs i) = Ok tt ->
  turn i s
  = (Log INFO "Starting appointment check..."
       :: tc ++ [Log ERROR ("Error in monitor loop: " +++ str e);
                 Sleep check_interval],
     s1, Ok true)
  /\ exists rest,
       trace_of (loop (S (S turns)) i s)
       = (Log INFO "Starting appointment check..."
            :: tc ++ [Log ERROR ("Error in monitor loop: " +++ str e);
                      Sleep check_interval])
         ++ Log INFO "Starting appointment check..."
              :: trace_of (check (during_check (envs (S i))) s1) ++ rest.
Proof.
  intros Hc He Hs. pose proof (loop_turn_on_error i s tc s1 e Hc He) as Ht.
  rewrite Hs in Ht. split; [exact Ht |].
  destruct (monitor_loop_starts_check turns (S i) s1) as [rest Hrest].
  exists rest. rewrite (monitor_loop_next (S turns) i s _ s1 Ht), Hrest.
  reflexivity.
Qed.

End LoopFacts.

(** ** The two variants on the same site *)

(** On a site where every element is found, the two variants return the
    same from [login] and from the check as soon as the location reached
    after the form was submitted has no [sign_in] in it. *)
Lemma variants_agree_off_sign_in h p url busy disabled :
  contains "sign_in" url = false ->
  value_of (SnoopBot.login (selenium_page h url busy disabled) selenium_monitor)
  = value_of (VisaMonitor.login (playwright_page h p url busy disabled) playwright_monitor)
  /\ value_of (SnoopBot.check_appointments (selenium_page h url busy disabled)
                 selenium_monitor)
     = value_of (VisaMonitor.check_appointments (playwright_page h p url busy disabled)
                   playwright_monitor).
Proof.
  intros Hu.
  unfold SnoopBot.check_appointments, SnoopBot.check_appointments_body,
    SnoopBot.setup_driver, SnoopBot.release,
    VisaMonitor.check_appointments, VisaMonitor.check_appointments_body,
    VisaMonitor.open_browser, VisaMonitor.release.
  unfold_selenium. unfold_playwright. unfold_monad.
  destruct busy as [[] |]; cbn; rewrite ?Hu; cbn;
    destruct (truthy disabled); cbn; split; reflexivity.
Qed.

(** * The properties of the specification *)

(** C1: a notification email is sent if and only if the verdict is
    Available.  The code does the opposite, and this theorem runs it on
    four sites.  Where a slot is open (verdict Available) no mail goes out
    and the log says that nothing is available; where the submit control is
    disabled (verdict Unavailable) exactly one mail goes out, and it says
    that an appointment is available. *)
Theorem C1_mail_goes_out_when_nothing_is_available :
  (SnoopBot.probe_verdict selenium_open selenium_monitor = Available
   /\ count is_mail (trace_of (SnoopBot.check_appointments selenium_open selenium_monitor)) = 0)
  /\ (SnoopBot.probe_verdict selenium_closed selenium_monitor = Unavailable
      /\ count is_mail
           (trace_of (SnoopBot.check_appointments selenium_closed selenium_monitor)) = 1)
  /\ (VisaMonitor.probe_verdict playwright_open_site playwright_monitor = Available
      /\ count is_mail
           (trace_of (VisaMonitor.check_appointments playwright_open_site
                        playwright_monitor)) = 0)
  /\ (VisaMonitor.probe_verdict playwright_closed playwright_monitor = Unavailable
      /\ count is_mail
           (trace_of (VisaMonitor.check_appointments playwright_closed
                        playwright_monitor)) = 1).
Proof. repeat split; vm_compute; reflexivity. Qed.

(** C2: once the probe reaches the inspection of the page, a busy message
    that is present and visible gives Unavailable whatever the submit
    control says; otherwise a truthy [disabled] attribute gives Unavailable
    and a falsy one gives Available.  In both variants; the method returns
    [False] for Unavailable and [True] for Available. *)
Theorem C2_probe_verdict :
  (forall E self,
      SnoopBot.reaches_inspection E = true ->
      (SnoopBot.busy_shown E = true ->
       SnoopBot.probe_verdict E self = Unavailable
       /\ value_of (SnoopBot.check_reschedule_availability E self) = Ok false)
      /\ (forall v,
             SnoopBot.busy_not_shown E = true ->
             SnoopBot.submit_reads E v ->
             SnoopBot.probe_verdict E self
             = (if truthy v then Unavailable else Available)
             /\ value_of (SnoopBot.check_reschedule_availability E self)
                = Ok (negb (truthy v))))
  /\ (forall E self,
         VisaMonitor.reaches_inspection E = true ->
         (VisaMonitor.busy_shown E = true ->
          VisaMonitor.probe_verdict E self = Unavailable
          /\ value_of (VisaMonitor.check_reschedule_availability E self) = Ok false)
         /\ (forall v,
                VisaMonitor.busy_shown E = false ->
                VisaMonitor.submit_reads E v ->
                VisaMonitor.probe_verdict E self
                = (if truthy v then Unavailable else Available)
                /\ value_of (VisaMonitor.check_reschedule_availability E self)
                   = Ok (negb (truthy v)))).
Proof.
  split; intros E self Hr; split.
  - intros Hb. unfold SnoopBot.probe_verdict.
    rewrite selenium_probe_returns, (selenium_probe_busy E self Hr Hb).
    split; reflexivity.
  - intros v Hb Hv. unfold SnoopBot.probe_verdict.
    rewrite selenium_probe_returns, (selenium_probe_submit E self v Hr Hb Hv).
    destruct (truthy v); split; reflexivity.
  - intros Hb. unfold VisaMonitor.probe_verdict.
    rewrite playwright_probe_returns, (playwright_probe_busy E self Hr Hb).
    split; reflexivity.
  - intros v Hb Hv. unfold VisaMonitor.probe_verdict.
    rewrite playwright_probe_returns, (playwright_probe_submit E self v Hr Hb Hv).
    destruct (truthy v); split; reflexivity.
Qed.

Lemma C2_probe_verdict_witness :
  (SnoopBot.probe_verdict selenium_busy selenium_monitor = Unavailable
   /\ value_of (SnoopBot.check_reschedule_availability selenium_busy selenium_monitor)
      = Ok false)
  /\ (SnoopBot.probe_verdict selenium_closed selenium_monitor
      = (if truthy (Some "true") then Unavailable else Available)
      /\ value_of (SnoopBot.check_reschedule_availability selenium_closed selenium_monitor)
         = Ok (negb (truthy (Some "true"))))
  /\ (VisaMonitor.probe_verdict playwright_busy playwright_monitor = Unavailable
      /\ value_of (VisaMonitor.check_reschedule_availability playwright_busy
                     playwright_monitor) = Ok false)
  /\ (VisaMonitor.probe_verdict playwright_open_site playwright_monitor
      = (if truthy None then Unavailable else Available)
      /\ value_of (VisaMonitor.check_reschedule_availability playwright_open_site
                     playwright_monitor) = Ok (negb (truthy None))).
Proof.
  split; [| split; [| split]].
  - apply (proj1 (proj1 C2_probe_verdict selenium_busy selenium_monitor eq_refl)).
    reflexivity.
  - apply (proj2 (proj1 C2_probe_verdict selenium_closed selenium_monitor eq_refl)).
    + reflexivity.
    + split; reflexivity.
  - apply (proj1 (proj2 C2_probe_verdict playwright_busy playwright_monitor eq_refl)).
    reflexivity.
  - apply (proj2 (proj2 C2_probe_verdict playwright_open_site playwright_monitor eq_refl)).
    + reflexivity.
    + split; reflexivity.
Defined.

(** C3: once the form was submitted, [login] succeeds exactly when the
    browser has left the sign-in URL.  The Selenium variant does not look at
    the location: on a site that keeps the browser on the sign-in URL it
    returns [True], where the Playwright variant returns [False]. *)
Theorem C3_selenium_login_ignores_the_location :
  SnoopBot.submission_completes selenium_stuck = true
  /\ SnoopBot.current_url selenium_stuck = sign_in_url
  /\ value_of (SnoopBot.login selenium_stuck selenium_monitor) = Ok true
  /\ VisaMonitor.submission_completes playwright_stuck = true
  /\ VisaMonitor.page_url playwright_stuck = Ok sign_in_url
  /\ value_of (VisaMonitor.login playwright_stuck playwright_monitor) = Ok false.
Proof. repeat split; vm_compute; reflexivity. Qed.

(** C4: an exception during the probe gives Indeterminate, and no mail is
    sent on that check.  The first half holds; the second does not: on a
    site whose location dropdown never appears the probe raises, the method
    logs the error and returns [False], and the check then sends the mail
    that announces an appointment and returns [True]. *)
Theorem C4_mail_goes_out_when_the_probe_fails :
  (SnoopBot.probe_verdict selenium_no_dropdown selenium_monitor = Indeterminate
   /\ value_of (SnoopBot.check_reschedule_availability selenium_no_dropdown
                  selenium_monitor) = Ok false
   /\ count is_mail
        (trace_of (SnoopBot.check_appointments selenium_no_dropdown selenium_monitor)) = 1
   /\ value_of (SnoopBot.check_appointments selenium_no_dropdown selenium_monitor)
      = Ok true)
  /\ (VisaMonitor.probe_verdict playwright_no_dropdown playwright_monitor = Indeterminate
      /\ value_of (VisaMonitor.check_reschedule_availability playwright_no_dropdown
                     playwright_monitor) = Ok false
      /\ count is_mail
           (trace_of (VisaMonitor.check_appointments playwright_no_dropdown
                        playwright_monitor)) = 1
      /\ value_of (VisaMonitor.check_appointments playwright_no_dropdown
                     playwright_monitor) = Ok true).
Proof. repeat split; vm_compute; reflexivity. Qed.

(** C5: when a check has started a browser [h], the trace of that check
    holds exactly one release, it is the release of [h], and it comes after
    the start; this on every path through the check, whatever the calls
    answer, and also when the check itself ends by raising.  In the
    Playwright variant the browser is started once [sync_playwright().start()]
    and [chromium.launch] have returned. *)
Theorem C5_browser_released_exactly_once :
  (forall E self h,
      SnoopBot.webdriver_Chrome E = Ok h ->
      exists before after,
        trace_of (SnoopBot.check_appointments E self)
        = before ++ BrowserReleased h :: after
        /\ In (BrowserStarted h) before
        /\ count is_release before = 0
        /\ count is_release after = 0)
  /\ (forall E self h,
         VisaMonitor.sync_playwright_start E = Ok tt ->
         VisaMonitor.chromium_launch E = Ok h ->
         exists before after,
           trace_of (VisaMonitor.check_appointments E self)
           = before ++ BrowserReleased h :: after
           /\ In (BrowserStarted h) before
           /\ count is_release before = 0
           /\ count is_release after = 0).
Proof.
  split.
  - exact selenium_released_once.
  - exact playwright_released_once.
Qed.

Lemma C5_browser_released_exactly_once_witness :
  (exists before after,
      trace_of (SnoopBot.check_appointments selenium_quit_fails selenium_monitor)
      = before ++ BrowserReleased 1 :: after
      /\ In (BrowserStarted 1) before
      /\ count is_release before = 0
      /\ count is_release after = 0)
  /\ (exists before after,
         trace_of (VisaMonitor.check_appointments playwright_no_dropdown playwright_monitor)
         = before ++ BrowserReleased 1 :: after
         /\ In (BrowserStarted 1) before
         /\ count is_release before = 0
         /\ count is_release after = 0).
Proof.
  split.
  - apply (proj1 C5_browser_released_exactly_once selenium_quit_fails selenium_monitor 1).
    reflexivity.
  - apply (proj2 C5_browser_released_exactly_once playwright_no_dropdown
             playwright_monitor 1); reflexivity.
Defined.

(** ** The entry points *)

Lemma selenium_check_starts E s h :
  SnoopBot.webdriver_Chrome E = Ok h ->
  In (BrowserStarted h) (trace_of (SnoopBot.check_appointments E s)).
Proof.
  intros H. destruct (selenium_released_once E s h H) as (before & after & -> & Hin & _).
  apply in_or_app. left. exact Hin.
Qed.

Lemma playwright_check_starts E s h :
  VisaMonitor.sync_playwright_start E = Ok tt ->
  VisaMonitor.chromium_launch E = Ok h ->
  In (BrowserStarted h) (trace_of (VisaMonitor.check_appointments E s)).
Proof.
  intros H0 H.
  destruct (playwright_released_once E s h H0 H) as (before & after & -> & Hin & _).
  apply in_or_app. left. exact Hin.
Qed.

(** [run_monitor] reaches its first check whatever the monitor holds, as
    long as the start-up notification is not cut short. *)
Lemma run_monitor_reaches_check {St check_env}
    (get_from get_to : St -> option string)
    (check : check_env -> M (St:=St) bool) start envs interval turns s ev :
  all_ordinary start = true ->
  In ev (trace_of (check (during_check (envs 0)) s)) ->
  In ev (trace_of
           ((info "Starting visa appointment monitor..." ;;
             send_notification get_from get_to start started_subject started_message ;;
             monitor_loop check interval envs (S turns) 0) s)).
Proof.
  intros Hs Hin.
  destruct (send_notification_returns get_from get_to start started_subject
              started_message s Hs) as [Hv Hst].
  destruct (monitor_loop_starts_check check interval envs turns 0 s) as [rest Hrest].
  unfold bind at 1. unfold info, emit. unfold bind at 1.
  destruct (send_notification get_from get_to start started_subject started_message s)
    as [[t1 s1] r1].
  projs. subst r1 s1.
  destruct (monitor_loop check interval envs (S turns) 0 s) as [[t2 s2] r2].
  projs. subst t2. cbn.
  right. apply in_or_app. right. right. apply in_or_app. left. exact Hin.
Qed.

Lemma check_once_starts_browser c E h :
  VisaMonitor.sync_playwright_start E = Ok tt ->
  VisaMonitor.chromium_launch E = Ok h ->
  exists rest,
    trace_of (CheckOnce.main c E)
    = Log INFO "Starting scheduled appointment check..." :: BrowserStarted h :: rest.
Proof.
  intros H0 H.
  destruct (playwright_guarded_body E (VisaMonitor.init c) h H0 H)
    as (t & s' & r & Hrun & _).
  unfold CheckOnce.main. unfold bind at 1. unfold info at 1, emit at 1.
  unfold bind at 1. unfold VisaMonitor.check_appointments, try_finally.
  rewrite Hrun.
  destruct (VisaMonitor.release E s') as [[t' s2] [[] | e]]; [destruct r |];
    cbn; eexists; reflexivity.
Qed.

(** C6, as the code has it: no credential is looked at before the browser
    is started.  For every credential set, with or without missing fields,
    [check_once.py] starts a browser as soon as Playwright can start one,
    and so does the first check of either continuous monitor once its
    start-up notification has returned. *)
Theorem C6_credentials_are_not_checked :
  (forall c E h,
      VisaMonitor.sync_playwright_start E = Ok tt ->
      VisaMonitor.chromium_launch E = Ok h ->
      exists rest,
        trace_of (CheckOnce.main c E)
        = Log INFO "Starting scheduled appointment check..."
            :: BrowserStarted h :: rest)
  /\ (forall c start envs turns h,
         all_ordinary start = true ->
         VisaMonitor.sync_playwright_start (during_check (envs 0)) = Ok tt ->
         VisaMonitor.chromium_launch (during_check (envs 0)) = Ok h ->
         In (BrowserStarted h) (trace_of (VisaMonitor.main c start envs (S turns))))
  /\ (forall c start envs turns h,
         all_ordinary start = true ->
         SnoopBot.webdriver_Chrome (during_check (envs 0)) = Ok h ->
         In (BrowserStarted h) (trace_of (SnoopBot.main c start envs (S turns)))).
Proof.
  split; [exact check_once_starts_browser | split].
  - intros c start envs turns h Hs H0 H.
    apply (run_monitor_reaches_check VisaMonitor.smtp_email VisaMonitor.notification_email
             VisaMonitor.check_appointments); [exact Hs |].
    apply playwright_check_starts; assumption.
  - intros c start envs turns h Hs H.
    apply (run_monitor_reaches_check SnoopBot.smtp_email SnoopBot.notification_email
             SnoopBot.check_appointments); [exact Hs |].
    apply selenium_check_starts; assumption.
Qed.

Lemma C6_credentials_are_not_checked_witness :
  (exists rest,
      trace_of (CheckOnce.main no_credentials playwright_open_site)
      = Log INFO "Starting scheduled appointment check..." :: BrowserStarted 1 :: rest)
  /\ In (BrowserStarted 1)
       (trace_of (VisaMonitor.main no_credentials smtp_refused
                    (fun _ => mkIterEnv playwright_open_site Ok_tt Ok_tt) 1))
  /\ In (BrowserStarted 1)
       (trace_of (SnoopBot.main no_credentials smtp_refused
                    (fun _ => mkIterEnv selenium_open Ok_tt Ok_tt) 1)).
Proof.
  split; [| split].
  - apply (proj1 C6_credentials_are_not_checked no_credentials playwright_open_site 1);
      reflexivity.
  - apply (proj1 (proj2 C6_credentials_are_not_checked) no_credentials smtp_refused
             (fun _ => mkIterEnv playwright_open_site Ok_tt Ok_tt) 0 1); reflexivity.
  - apply (proj2 (proj2 C6_credentials_are_not_checked) no_credentials smtp_refused
             (fun _ => mkIterEnv selenium_open Ok_tt Ok_tt) 0 1); reflexivity.
Defined.

(** C6, as the claim has it, fails: with all five variables unset,
    [check_once.py] does not stop at start-up; it starts a browser. *)
Lemma C6_startup_does_not_fail_fast :
  missing_field no_credentials = true
  /\ count is_start (trace_of (CheckOnce.main no_credentials playwright_open_site)) = 1
  /\ value_of (CheckOnce.main no_credentials playwright_open_site) = Ok tt.
Proof. repeat split; vm_compute; reflexivity. Qed.

(** C7: in a turn of the continuous loop whose check raises an ordinary
    error, the loop logs the error, sleeps once for the configured
    interval, and takes another turn, which starts the next check: the
    turn's own events are the two log lines and that one sleep around the
    events of the check.  In both variants; the sleep is one that runs to
    its end. *)
Theorem C7_loop_survives_a_failed_check :
  (forall check_interval envs turns i self tc s1 e,
      SnoopBot.check_appointments (during_check (envs i)) self = (tc, s1, Raise e) ->
      isinstance e Exception = true ->
      sleep_after_error (envs i) = Ok tt ->
      loop_turn SnoopBot.check_appointments check_interval envs i self
      = (Log INFO "Starting appointment check..."
           :: tc ++ [Log ERROR ("Error in monitor loop: " +++ str e);
                     Sleep check_interval],
         s1, Ok true)
      /\ exists rest,
           trace_of (monitor_loop SnoopBot.check_appointments check_interval envs
                       (S (S turns)) i self)
           = (Log INFO "Starting appointment check..."
                :: tc ++ [Log ERROR ("Error in monitor loop: " +++ str e);
                          Sleep check_interval])
             ++ Log INFO "Starting appointment check..."
                  :: trace_of (SnoopBot.check_appointments
                                 (during_check (envs (S i))) s1)
                  ++ rest)
  /\ (forall check_interval envs turns i self tc s1 e,
         VisaMonitor.check_appointments (during_check (envs i)) self
         = (tc, s1, Raise e) ->
         isinstance e Exception = true ->
         sleep_after_error (envs i) = Ok tt ->
         loop_turn VisaMonitor.check_appointments check_interval envs i self
         = (Log INFO "Starting appointment check..."
              :: tc ++ [Log ERROR ("Error in monitor loop: " +++ str e);
                        Sleep check_interval],
            s1, Ok true)
         /\ exists rest,
              trace_of (monitor_loop VisaMonitor.check_appointments check_interval envs
                          (S (S turns)) i self)
              = (Log INFO "Starting appointment check..."
                   :: tc ++ [Log ERROR ("Error in monitor loop: " +++ str e);
                             Sleep check_interval])
                ++ Log INFO "Starting appointment check..."
                     :: trace_of (VisaMonitor.check_appointments
                                    (during_check (envs (S i))) s1)
                     ++ rest).
Proof.
  split; intros; apply loop_survives_check_error; assumption.
Qed.

Lemma C7_loop_survives_a_failed_check_witness :
  (exists tc s1,
      loop_turn SnoopBot.check_appointments 30
        (fun _ => mkIterEnv selenium_quit_fails Ok_tt Ok_tt) 0 selenium_monitor
      = (Log INFO "Starting appointment check..."
           :: tc ++ [Log ERROR ("Error in monitor loop: " +++ str session_lost);
                     Sleep 30],
         s1, Ok true))
  /\ (exists tc s1,
         loop_turn VisaMonitor.check_appointments 1800
           (fun _ => mkIterEnv playwright_close_fails Ok_tt Ok_tt) 0 playwright_monitor
         = (Log INFO "Starting appointment check..."
              :: tc ++ [Log ERROR ("Error in monitor loop: " +++ str session_lost);
                        Sleep 1800],
            s1, Ok true)).
Proof.
  split; eexists; eexists.
  - apply (proj1 C7_loop_survives_a_failed_check 30%Z
             (fun _ => mkIterEnv selenium_quit_fails Ok_tt Ok_tt) 0 0 selenium_monitor);
      reflexivity.
  - apply (proj2 C7_loop_survives_a_failed_check 1800%Z
             (fun _ => mkIterEnv playwright_close_fails Ok_tt Ok_tt) 0 0
             playwright_monitor);
      reflexivity.
Defined.

(** C8: [send_notification] keeps a delivery failure to itself.  Whatever
    ordinary error a step of building, connecting, authenticating or
    sending raises, the method returns, leaves the monitor as it was, has
    logged the error as its last act, and has connected and sent at most
    once.  In both variants. *)
Theorem C8_send_notification_contains_failures :
  (forall env subject message self,
      all_ordinary env = true ->
      contained env self (SnoopBot.send_notification env subject message self))
  /\ (forall env subject message self,
         all_ordinary env = true ->
         contained env self (VisaMonitor.send_notification env subject message self)).
Proof.
  split; intros; apply send_notification_contained; assumption.
Qed.

Lemma C8_send_notification_contains_failures_witness :
  contained smtp_refused selenium_monitor
    (SnoopBot.send_notification smtp_refused started_subject started_message
       selenium_monitor)
  /\ contained smtp_refused playwright_monitor
       (VisaMonitor.send_notification smtp_refused available_subject available_message
          playwright_monitor).
Proof.
  split.
  - apply (proj1 C8_send_notification_contains_failures smtp_refused). reflexivity.
  - apply (proj2 C8_send_notification_contains_failures smtp_refused). reflexivity.
Defined.

(** C9: the two variants return the same from [login] and from the check
    on the same site.  They do not on a site that keeps the browser on the
    sign-in URL while every element is found: the Selenium [login] returns
    [True] and its check goes on to return [True]; the Playwright [login]
    returns [False] and its check returns [False]. *)
Theorem C9_variants_differ_on_the_sign_in_page :
  value_of (SnoopBot.login selenium_stuck selenium_monitor) = Ok true
  /\ value_of (VisaMonitor.login playwright_stuck playwright_monitor) = Ok false
  /\ value_of (SnoopBot.check_appointments selenium_stuck selenium_monitor) = Ok true
  /\ value_of (VisaMonitor.check_appointments playwright_stuck playwright_monitor)
     = Ok false.
Proof. repeat split; vm_compute; reflexivity. Qed.

(** C10: in a check whose [login] and [navigate_to_reschedule] returned
    [True] and whose probe returned [available], [check_appointments]
    returns the negation of [available].  The check returns at all when the
    notification, if one is sent, is not cut short and the release of the
    browser returns. *)
Theorem C10_check_returns_the_negated_probe :
  (forall E self t0 s0 t1 s1 t2 s2 t3 s3 available,
      SnoopBot.setup_driver E self = (t0, s0, Ok tt) ->
      SnoopBot.login E s0 = (t1, s1, Ok true) ->
      SnoopBot.navigate_to_reschedule E s1 = (t2, s2, Ok true) ->
      SnoopBot.check_reschedule_availability E s2 = (t3, s3, Ok available) ->
      (available = false -> all_ordinary (SnoopBot.smtp E) = true) ->
      returned (SnoopBot.driver_quit E) = true ->
      value_of (SnoopBot.check_appointments E self) = Ok (negb available))
  /\ (forall E self t0 s0 t1 s1 t2 s2 t3 s3 available,
         VisaMonitor.open_browser E self = (t0, s0, Ok tt) ->
         VisaMonitor.login E s0 = (t1, s1, Ok true) ->
         VisaMonitor.navigate_to_reschedule E s1 = (t2, s2, Ok true) ->
         VisaMonitor.check_reschedule_availability E s2 = (t3, s3, Ok available) ->
         (available = false -> all_ordinary (VisaMonitor.smtp E) = true) ->
         returned (VisaMonitor.browser_close E) = true ->
         returned (VisaMonitor.playwright_stop E) = true ->
         value_of (VisaMonitor.check_appointments E self) = Ok (negb available)).
Proof.
  split.
  - intros E self t0 s0 t1 s1 t2 s2 t3 s3 available H0 H1 H2 H3 Hm Hq.
    unfold SnoopBot.check_appointments.
    rewrite try_finally_value by (apply selenium_release_returns; exact Hq).
    apply try_except_value_ok. unfold SnoopBot.check_appointments_body.
    rewrite (bind_value _ _ _ _ _ _ H0).
    exact (selenium_pipeline_value E s0 t1 s1 t2 s2 t3 s3 available H1 H2 H3 Hm).
  - intros E self t0 s0 t1 s1 t2 s2 t3 s3 available H0 H1 H2 H3 Hm Hc Hp.
    unfold VisaMonitor.check_appointments.
    rewrite try_finally_value by (apply playwright_release_returns; assumption).
    apply try_except_value_ok. unfold VisaMonitor.check_appointments_body.
    rewrite (bind_value _ _ _ _ _ _ H0).
    exact (playwright_pipeline_value E s0 t1 s1 t2 s2 t3 s3 available H1 H2 H3 Hm).
Qed.

Lemma C10_check_returns_the_negated_probe_witness :
  value_of (SnoopBot.check_appointments selenium_closed selenium_monitor)
  = Ok (negb false)
  /\ value_of (VisaMonitor.check_appointments playwright_open_site playwright_monitor)
     = Ok (negb true).
Proof.
  split.
  - eapply (proj1 C10_check_returns_the_negated_probe selenium_closed selenium_monitor);
      reflexivity.
  - eapply (proj2 C10_check_returns_the_negated_probe playwright_open_site
              playwright_monitor);
      reflexivity.
Defined.

(** * Further properties *)

(** ** When each step returns [True] *)

(** Takes the answers apart in the order in which the method asks. *)
Ltac answers :=
  repeat match goal with
    | |- context [match ?r with _ => _ end] => is_var r; destruct r; cbn
    | |- context [isinstance ?e ?c] => destruct (isinstance e c) eqn:?; cbn
    | |- context [contains ?a ?b] => destruct (contains a b); cbn
    | |- context [truthy ?a] => destruct (truthy a); cbn
    end.

Lemma timeout_is_ordinary e :
  isinstance e PlaywrightTimeout = true -> isinstance e Exception = true.
Proof. destruct e as [[] msg]; cbv; congruence. Qed.

(** X1: the Selenium [login] returns [True] exactly when every call on the
    form returned, where the policy checkbox may also be missing: a
    [NoSuchElementException] from any call on the checkbox is passed over,
    any other exception there fails the login. *)
Theorem X1_selenium_login_succeeds_iff E self :
  succeeded (value_of (SnoopBot.login E self)) = selenium_login_passes E.
Proof.
  unfold selenium_login_passes, selenium_policy_passes.
  destruct E; cbn.
  unfold SnoopBot.login; unfold_monad; cbn.
  answers; reflexivity.
Qed.

(** X2: the Playwright [login] returns [True] exactly when every call on
    the form returned, the checkbox step raised nothing but ordinary
    errors, and the location read afterwards has no [sign_in] in it or
    could not be read at all. *)
Theorem X2_playwright_login_succeeds_iff E self :
  succeeded (value_of (VisaMonitor.login E self))
  = VisaMonitor.submission_completes E && playwright_location_passes E.
Proof.
  unfold VisaMonitor.submission_completes, VisaMonitor.policy_passes,
    playwright_location_passes.
  destruct E; cbn.
  unfold VisaMonitor.login, VisaMonitor.accept_policy, VisaMonitor.verify_login;
    unfold_monad; cbn.
  answers; try reflexivity;
    exfalso;
    match goal with
    | H : isinstance ?e PlaywrightTimeout = true,
      H' : isinstance ?e Exception = false |- _ =>
        rewrite (timeout_is_ordinary e H) in H'; discriminate H'
    end.
Qed.

(** X3: the Selenium [navigate_to_reschedule] returns [True] exactly when
    the waits and clicks returned, where a reschedule click that raises,
    whatever it raises, is made up for by the click through JavaScript. *)
Theorem X3_selenium_navigation_succeeds_iff E self :
  succeeded (value_of (SnoopBot.navigate_to_reschedule E self))
  = selenium_navigation_passes E.
Proof.
  unfold selenium_navigation_passes.
  destruct E; cbn.
  unfold SnoopBot.navigate_to_reschedule; unfold_monad; cbn.
  answers; reflexivity.
Qed.

(** X4: the Playwright [navigate_to_reschedule] has no second way to
    click: it returns [True] exactly when all seven calls returned. *)
Theorem X4_playwright_navigation_succeeds_iff E self :
  succeeded (value_of (VisaMonitor.navigate_to_reschedule E self))
  = playwright_navigation_passes E.
Proof.
  unfold playwright_navigation_passes.
  destruct E; cbn.
  unfold VisaMonitor.navigate_to_reschedule; unfold_monad; cbn.
  answers; reflexivity.
Qed.

(** X5: the probe returns [True] only off an enabled submit control.  In
    the Selenium variant exactly when the location was selected, the busy
    message is absent or hidden, and the control was found with a falsy
    [disabled]; in the Playwright variant exactly when the location was
    selected, the busy message was not seen visible (an exception while
    looking counts as not seen), and the control was found with a falsy
    [disabled]. *)
Theorem X5_probe_reports_available_iff :
  (forall E self,
      succeeded (value_of (SnoopBot.check_reschedule_availability E self))
      = SnoopBot.reaches_inspection E && selenium_busy_passes E
        && selenium_submit_enabled E)
  /\ (forall E self,
         succeeded (value_of (VisaMonitor.check_reschedule_availability E self))
         = VisaMonitor.reaches_inspection E && negb (VisaMonitor.busy_shown E)
           && playwright_submit_enabled E).
Proof.
  split; intros E self.
  - unfold SnoopBot.reaches_inspection, selenium_busy_passes, selenium_submit_enabled.
    destruct E; cbn.
    unfold SnoopBot.check_reschedule_availability,
      SnoopBot.check_reschedule_availability_body, SnoopBot.busy_check;
      unfold_monad; cbn.
    answers; reflexivity.
  - unfold VisaMonitor.reaches_inspection, VisaMonitor.busy_shown,
      playwright_submit_enabled.
    destruct E; cbn.
    unfold VisaMonitor.check_reschedule_availability,
      VisaMonitor.check_reschedule_availability_body, VisaMonitor.busy_check;
      unfold_monad; cbn.
    answers; reflexivity.
Qed.

(** X6: in the Selenium probe, an ordinary error other than
    [NoSuchElementException] raised while the busy message is inspected
    ends the probe: the verdict is Indeterminate and the method returns
    [False], and the submit control is not consulted. *)
Theorem X6_selenium_busy_check_error_is_indeterminate E self e :
  SnoopBot.reaches_inspection E = true ->
  returned (SnoopBot.find_busy E) = true ->
  SnoopBot.busy_is_displayed E = Raise e ->
  isinstance e NoSuchElementException = false ->
  isinstance e Exception = true ->
  SnoopBot.probe_verdict E self = Indeterminate
  /\ SnoopBot.check_reschedule_availability E self
     = ([Log INFO "Selecting Calgary location..."; Sleep 4;
         Log INFO "Checking for system busy message...";
         Log ERROR ("Availability check failed: " +++ str e)],
        self, Ok false).
Proof.
  unfold SnoopBot.reaches_inspection, SnoopBot.probe_verdict.
  destruct E; cbn. intros H1 H2 H3 Hn He. hyp_cases.
  unfold SnoopBot.check_reschedule_availability,
    SnoopBot.check_reschedule_availability_body, SnoopBot.busy_check;
    unfold_monad; cbn.
  rewrite Hn. cbn. rewrite He. cbn. split; reflexivity.
Qed.

Lemma X6_selenium_busy_check_error_is_indeterminate_witness :
  SnoopBot.probe_verdict (selenium_fault 30 stale) selenium_monitor = Indeterminate
  /\ SnoopBot.check_reschedule_availability (selenium_fault 30 stale) selenium_monitor
     = ([Log INFO "Selecting Calgary location..."; Sleep 4;
         Log INFO "Checking for system busy message...";
         Log ERROR ("Availability check failed: " +++ str stale)],
        selenium_monitor, Ok false).
Proof.
  apply (X6_selenium_busy_check_error_is_indeterminate (selenium_fault 30 stale)
           selenium_monitor stale); reflexivity.
Defined.

(** ** What a monitor does with its credentials *)

Section ObeysFacts.
Context {St V : Type}.
Variable view : St -> V.
Variable Q : V -> event -> Prop.
Variable v : V.

Lemma obeys_ret {A} (a : A) : obeys view Q v (ret a).
Proof. intros s Hs. split; [constructor | exact Hs]. Qed.

Lemma obeys_call {A} (r : result A) : obeys view Q v (call r).
Proof. intros s Hs. split; [constructor | exact Hs]. Qed.

Lemma obeys_emit (ev : event) : Q v ev -> obeys view Q v (emit ev).
Proof. intros H s Hs. split; [repeat constructor; exact H | exact Hs]. Qed.

Lemma obeys_modify (f : St -> St) :
  (forall s, view (f s) = view s) -> obeys view Q v (modify f).
Proof. intros H s Hs. split; [constructor | cbn; rewrite H; exact Hs]. Qed.

Lemma obeys_bind {A B} (m : M (St:=St) A) (f : A -> M B) :
  obeys view Q v m -> (forall a, obeys view Q v (f a)) -> obeys view Q v (bind m f).
Proof.
  intros Hm Hf s Hs. specialize (Hm s Hs). unfold bind.
  destruct (m s) as [[t s1] [a | e]]; projs; [| exact Hm].
  destruct Hm as [Ht Hs1]. specialize (Hf a s1 Hs1).
  destruct (f a s1) as [[t' s2] r]. projs. destruct Hf as [Ht' Hs2].
  split; [apply Forall_app; split; assumption | exact Hs2].
Qed.

(** What [gets] hands on was read off a state with the view [v]. *)
Lemma obeys_bind_gets {A B} (g : St -> A) (k : A -> M (St:=St) B) :
  (forall s, view s = v -> obeys view Q v (k (g s))) ->
  obeys view Q v (bind (gets g) k).
Proof.
  intros H s Hs. specialize (H s Hs s Hs). unfold bind, gets.
  destruct (k (g s) s) as [[t s'] r]. exact H.
Qed.

Lemma obeys_try_except {A} (m : M (St:=St) A) h :
  obeys view Q v m -> obeys_handler view Q v h -> obeys view Q v (try_except m h).
Proof.
  intros Hm Hh s Hs. specialize (Hm s Hs). unfold try_except.
  destruct (m s) as [[t s1] [a | e]]; projs; [exact Hm |].
  destruct (h e) as [k |] eqn:Hk; [| exact Hm].
  destruct Hm as [Ht Hs1]. specialize (Hh e k Hk s1 Hs1).
  destruct (k s1) as [[t' s2] r]. projs. destruct Hh as [Ht' Hs2].
  split; [apply Forall_app; split; assumption | exact Hs2].
Qed.

Lemma obeys_try_finally {A} (m : M (St:=St) A) fin :
  obeys view Q v m -> obeys view Q v fin -> obeys view Q v (try_finally m fin).
Proof.
  intros Hm Hf s Hs. specialize (Hm s Hs). unfold try_finally.
  destruct (m s) as [[t s1] r]. projs. destruct Hm as [Ht Hs1].
  specialize (Hf s1 Hs1). cbn iota beta.
  destruct (fin s1) as [[t' s2] [[] | e]]; projs; destruct Hf as [Ht' Hs2];
    (split; [apply Forall_app; split; assumption | exact Hs2]).
Qed.

Lemma obeys_with {A} enter (body : M (St:=St) A) leave :
  obeys view Q v enter -> obeys view Q v body -> obeys view Q v leave ->
  obeys view Q v (with_ enter body leave).
Proof.
  intros He Hb Hl. unfold with_. apply obeys_bind; [exact He |].
  intros _. apply obeys_try_finally; assumption.
Qed.

Lemma obeys_except {A} c (k : exn -> M (St:=St) A) :
  (forall e, obeys view Q v (k e)) -> obeys_handler view Q v (except c k).
Proof.
  intros Hk e k'. unfold except. destruct (isinstance e c); [| discriminate].
  intros [= <-]. apply Hk.
Qed.

Lemma obeys_except_all {A} (k : M (St:=St) A) :
  obeys view Q v k -> obeys_handler view Q v (except_all k).
Proof. intros Hk e k' [= <-]. exact Hk. Qed.

Lemma obeys_orelse {A} (h1 h2 : exn -> option (M (St:=St) A)) :
  obeys_handler view Q v h1 -> obeys_handler view Q v h2 ->
  obeys_handler view Q v (orelse h1 h2).
Proof.
  intros H1 H2 e k. unfold orelse. destruct (h1 e) as [k1 |] eqn:Hk1.
  - intros [= <-]. exact (H1 e k1 Hk1).
  - apply H2.
Qed.

(** The loop obeys what its check obeys, if the loop's own log lines and
    sleeps are allowed. *)
Lemma obeys_monitor_loop {check_env} (check : check_env -> M (St:=St) bool)
    check_interval envs :
  (forall E, obeys view Q v (check E)) ->
  (forall l msg, Q v (Log l msg)) ->
  (forall n, Q v (Sleep n)) ->
  forall turns i, obeys view Q v (monitor_loop check check_interval envs turns i).
Proof.
  intros Hc Hl Hsl. induction turns as [| turns IH]; intros i.
  - apply obeys_ret.
  - cbn [monitor_loop]. apply obeys_bind.
    + unfold loop_turn, info, error.
      repeat first
        [ apply obeys_ret | apply obeys_call | apply obeys_emit; auto
        | apply Hc | apply obeys_bind; [| intros ?] | apply obeys_try_except
        | apply obeys_except; intros ? | apply obeys_orelse ].
    + intros [|]; [apply IH | apply obeys_ret].
Qed.

End ObeysFacts.

Ltac obeys_step solve_event :=
  first
    [ apply obeys_ret
    | apply obeys_call
    | apply obeys_emit; solve_event
    | apply obeys_modify; intros ?; reflexivity
    | apply obeys_bind_gets; intros ? ?
    | apply obeys_bind; [| intros ?]
    | apply obeys_try_except
    | apply obeys_try_finally
    | apply obeys_with
    | apply obeys_except; intros ?
    | apply obeys_except_all
    | apply obeys_orelse
    | match goal with
      | |- obeys _ _ _ (if ?b then _ else _) => destruct b
      | |- obeys _ _ _ (match ?o with Some _ => _ | None => _ end) => destruct o
      end ].

Ltac discreet_event :=
  unfold check_discreet, discreet, typed_ok; cbv beta iota;
  repeat match goal with
    | H : _ = ?c |- _ =>
        is_var c;
        pose proof (f_equal VISA_EMAIL H); pose proof (f_equal VISA_PASSWORD H);
        pose proof (f_equal NOTIFICATION_EMAIL H); pose proof (f_equal SMTP_EMAIL H);
        clear H
    end;
  cbn [selenium_credentials playwright_credentials VISA_EMAIL VISA_PASSWORD
       NOTIFICATION_EMAIL SMTP_EMAIL] in *;
  first [exact I | intuition congruence].

Lemma selenium_check_discreet c E :
  obeys selenium_credentials check_discreet c (SnoopBot.check_appointments E).
Proof.
  unfold SnoopBot.check_appointments, SnoopBot.check_appointments_body,
    SnoopBot.setup_driver, SnoopBot.release.
  unfold_selenium.
  repeat obeys_step discreet_event.
Qed.

Lemma playwright_check_discreet c E :
  obeys playwright_credentials check_discreet c (VisaMonitor.check_appointments E).
Proof.
  unfold VisaMonitor.check_appointments, VisaMonitor.check_appointments_body,
    VisaMonitor.open_browser, VisaMonitor.release.
  unfold_playwright.
  repeat obeys_step discreet_event.
Qed.

Lemma check_discreet_discreet c ev : check_discreet c ev -> discreet c ev.
Proof. destruct ev; cbn; auto. intros (? & ? & ? & ?). auto 6. Qed.

Lemma obeys_weaken {St V A} (view : St -> V) (Q Q' : V -> event -> Prop) v
    (m : M (St:=St) A) :
  (forall ev, Q v ev -> Q' v ev) -> obeys view Q v m -> obeys view Q' v m.
Proof.
  intros H Hm s Hs. destruct (Hm s Hs) as [Ht Hv]. split; [| exact Hv].
  eapply Forall_impl; [| exact Ht]. exact H.
Qed.

Lemma selenium_run_monitor_discreet c start envs check_interval turns :
  obeys selenium_credentials discreet c
    (SnoopBot.run_monitor start envs check_interval turns).
Proof.
  unfold SnoopBot.run_monitor.
  apply obeys_bind; [apply obeys_emit; exact I | intros _].
  apply obeys_bind.
  - unfold SnoopBot.send_notification, send_notification, send_notification_body,
      info, error.
    repeat obeys_step discreet_event.
  - intros _. apply obeys_monitor_loop; try (intros; exact I).
    intros E. apply (obeys_weaken _ check_discreet); [apply check_discreet_discreet |].
    apply selenium_check_discreet.
Qed.

Lemma playwright_run_monitor_discreet c start envs check_interval turns :
  obeys playwright_credentials discreet c
    (VisaMonitor.run_monitor start envs check_interval turns).
Proof.
  unfold VisaMonitor.run_monitor.
  apply obeys_bind; [apply obeys_emit; exact I | intros _].
  apply obeys_bind.
  - unfold VisaMonitor.send_notification, send_notification, send_notification_body,
      info, error.
    repeat obeys_step discreet_event.
  - intros _. apply obeys_monitor_loop; try (intros; exact I).
    intros E. apply (obeys_weaken _ check_discreet); [apply check_discreet_discreet |].
    apply playwright_check_discreet.
Qed.

(** X7: no method assigns to the five credential attributes.  However many
    turns the continuous monitor takes and whatever the calls answer, the
    monitor holds at the end the credentials it was started with.  In both
    variants. *)
Theorem X7_credentials_are_never_changed :
  (forall start envs check_interval turns self,
      selenium_credentials
        (state_of (SnoopBot.run_monitor start envs check_interval turns self))
      = selenium_credentials self)
  /\ (forall start envs check_interval turns self,
         playwright_credentials
           (state_of (VisaMonitor.run_monitor start envs check_interval turns self))
         = playwright_credentials self).
Proof.
  split; intros start envs check_interval turns self.
  - apply (selenium_run_monitor_discreet _ start envs check_interval turns self eq_refl).
  - apply (playwright_run_monitor_discreet _ start envs check_interval turns self eq_refl).
Qed.

(** X8: the continuous monitor types nothing into the site but the account
    e-mail, into the field [user_email], and the account password, into the
    field [user_password]; and every mail it sends goes from the sender
    address to the notification address and is the start-up message or the
    availability message.  In both variants, for any number of turns and
    any answers. *)
Theorem X8_credentials_go_where_they_belong :
  (forall start envs check_interval turns self ev,
      In ev (trace_of (SnoopBot.run_monitor start envs check_interval turns self)) ->
      discreet (selenium_credentials self) ev)
  /\ (forall start envs check_interval turns self ev,
         In ev (trace_of (VisaMonitor.run_monitor start envs check_interval turns self)) ->
         discreet (playwright_credentials self) ev).
Proof.
  split; intros start envs check_interval turns self ev Hin.
  - destruct (selenium_run_monitor_discreet _ start envs check_interval turns self eq_refl)
      as [Ht _].
    rewrite Forall_forall in Ht. exact (Ht ev Hin).
  - destruct (playwright_run_monitor_discreet _ start envs check_interval turns self eq_refl)
      as [Ht _].
    rewrite Forall_forall in Ht. exact (Ht ev Hin).
Qed.

(** ** How many mails *)

Section AtMostFacts.
Context {St : Type}.
Variable p : event -> bool.

Lemma at_most_quiet {A} n (m : M (St:=St) A) : quiet p (fun _ => True) m -> at_most n p m.
Proof. intros H s. destruct (H s) as [-> _]. lia. Qed.

Lemma at_most_bind_first {A B} n (m : M (St:=St) A) (f : A -> M B) :
  at_most n p m -> (forall a, quiet p (fun _ => True) (f a)) -> at_most n p (bind m f).
Proof.
  intros Hm Hf s. specialize (Hm s). unfold bind.
  destruct (m s) as [[t s1] [a | e]]; projs; [| exact Hm].
  destruct (Hf a s1) as [Hc _]. destruct (f a s1) as [[t' s2] r]. projs.
  rewrite count_app. lia.
Qed.

Lemma at_most_bind_last {A B} n (m : M (St:=St) A) (f : A -> M B) :
  quiet p (fun _ => True) m -> (forall a, at_most n p (f a)) -> at_most n p (bind m f).
Proof.
  intros Hm Hf s. destruct (Hm s) as [Hc _]. unfold bind.
  destruct (m s) as [[t s1] [a | e]]; projs; [| lia].
  specialize (Hf a s1). destruct (f a s1) as [[t' s2] r]. projs.
  rewrite count_app. lia.
Qed.

Lemma at_most_try_except {A} n (m : M (St:=St) A) h :
  at_most n p m -> quiet_handler p (fun _ => True) h -> at_most n p (try_except m h).
Proof.
  intros Hm Hh s. specialize (Hm s). unfold try_except.
  destruct (m s) as [[t s1] [a | e]]; projs; [exact Hm |].
  destruct (h e) as [k |] eqn:Hk; [| exact Hm].
  destruct (Hh e k Hk s1) as [Hc _]. destruct (k s1) as [[t' s2] r]. projs.
  rewrite count_app. lia.
Qed.

Lemma at_most_try_finally {A} n (m : M (St:=St) A) fin :
  at_most n p m -> quiet p (fun _ => True) fin -> at_most n p (try_finally m fin).
Proof.
  intros Hm Hf s. specialize (Hm s). unfold try_finally.
  destruct (m s) as [[t s1] r]. projs. destruct (Hf s1) as [Hc _]. cbn iota beta.
  destruct (fin s1) as [[t' s2] [[] | e]]; projs; rewrite count_app; lia.
Qed.

End AtMostFacts.

(** Whatever the mail library answers, one [send_notification] sends at
    most one mail. *)
Lemma send_notification_at_most_one {St} (get_from get_to : St -> option string)
    env subject message :
  at_most 1 is_mail (send_notification get_from get_to env subject message).
Proof.
  intros s. destruct env as [b c t l m x].
  unfold send_notification, send_notification_body, with_, try_except,
    try_finally, bind, call, emit, gets, info, error, except, ret.
  cbn.
  repeat match goal with
    | |- context [match ?r with _ => _ end] => is_var r; destruct r; cbn
    | |- context [isinstance ?e ?c] => destruct (isinstance e c); cbn
    end;
    unfold count; cbn; lia.
Qed.

Lemma selenium_steps_quiet (p : event -> bool) P E :
  (forall ev, step_event ev = true -> p ev = false) ->
  quiet p P (SnoopBot.login E)
  /\ quiet p P (SnoopBot.navigate_to_reschedule E)
  /\ quiet p P (SnoopBot.check_reschedule_availability E).
Proof.
  intros Hp. unfold_selenium.
  split; [| split];
    repeat first [apply quiet_emit; apply Hp; reflexivity | quiet_step].
Qed.

Lemma playwright_steps_quiet (p : event -> bool) P E :
  (forall ev, step_event ev = true -> p ev = false) ->
  quiet p P (VisaMonitor.login E)
  /\ quiet p P (VisaMonitor.navigate_to_reschedule E)
  /\ quiet p P (VisaMonitor.check_reschedule_availability E).
Proof.
  intros Hp. unfold_playwright.
  split; [| split];
    repeat first [apply quiet_emit; apply Hp; reflexivity | quiet_step].
Qed.

Ltac quiet_any :=
  repeat first [quiet_step | apply quiet_modify; intros; exact I].

Lemma mail_is_no_step_event ev : step_event ev = true -> is_mail ev = false.
Proof. destruct ev; cbn; congruence. Qed.

Lemma selenium_check_at_most_one_mail E :
  at_most 1 is_mail (SnoopBot.check_appointments E).
Proof.
  destruct (selenium_steps_quiet is_mail (fun _ => True) E mail_is_no_step_event)
    as (Hl & Hn & Hp).
  unfold SnoopBot.check_appointments, SnoopBot.check_appointments_body.
  apply at_most_try_finally; [| unfold SnoopBot.release; quiet_all].
  apply at_most_try_except; [| unfold error; quiet_all].
  apply at_most_bind_last; [unfold SnoopBot.setup_driver; quiet_any | intros _].
  unfold SnoopBot.check_pipeline.
  apply at_most_bind_last; [exact Hl | intros b].
  destruct b; cbn [negb]; [| apply at_most_quiet; quiet_all].
  apply at_most_bind_last; [exact Hn | intros b].
  destruct b; cbn [negb]; [| apply at_most_quiet; quiet_all].
  apply at_most_bind_last; [exact Hp | intros b].
  destruct b; cbn [Bool.eqb]; [apply at_most_quiet; unfold info; quiet_all |].
  apply at_most_bind_first; [| intros _; quiet_all].
  apply send_notification_at_most_one.
Qed.

Lemma playwright_check_at_most_one_mail E :
  at_most 1 is_mail (VisaMonitor.check_appointments E).
Proof.
  destruct (playwright_steps_quiet is_mail (fun _ => True) E mail_is_no_step_event)
    as (Hl & Hn & Hp).
  unfold VisaMonitor.check_appointments, VisaMonitor.check_appointments_body.
  apply at_most_try_finally; [| unfold VisaMonitor.release; quiet_all].
  apply at_most_try_except; [| unfold error; quiet_all].
  apply at_most_bind_last; [unfold VisaMonitor.open_browser; quiet_any | intros _].
  unfold VisaMonitor.check_pipeline.
  apply at_most_bind_last; [exact Hl | intros b].
  destruct b; cbn [negb]; [| apply at_most_quiet; quiet_all].
  apply at_most_bind_last; [exact Hn | intros b].
  destruct b; cbn [negb]; [| apply at_most_quiet; quiet_all].
  apply at_most_bind_last; [exact Hp | intros b].
  destruct b; cbn [Bool.eqb]; [apply at_most_quiet; unfold info; quiet_all |].
  apply at_most_bind_first; [| intros _; quiet_all].
  apply send_notification_at_most_one.
Qed.

(** A trace with at most one mail, all of whose mails are [mail], has no
    mail or just [mail]. *)
Lemma mails_of_trace (Q : event -> Prop) (mail : event) (t : list event) :
  Forall Q t ->
  (forall ev, is_mail ev = true -> Q ev -> ev = mail) ->
  count is_mail t <= 1 ->
  filter is_mail t = [] \/ filter is_mail t = [mail].
Proof.
  intros HQ Hm. unfold count.
  assert (Hall : Forall (fun ev => ev = mail) (filter is_mail t)).
  { rewrite Forall_forall in *. intros ev Hin. apply filter_In in Hin.
    destruct Hin as [Hin Hmail]. exact (Hm ev Hmail (HQ ev Hin)). }
  destruct (filter is_mail t) as [| x [| y l]]; cbn; intros Hlen.
  - left. reflexivity.
  - right. inversion Hall; subst. reflexivity.
  - lia.
Qed.

Lemma check_discreet_mail c ev :
  is_mail ev = true -> check_discreet c ev ->
  ev = MailSent (SMTP_EMAIL c) (NOTIFICATION_EMAIL c) available_subject available_message.
Proof.
  destruct ev; cbn; try discriminate. intros _ (-> & -> & -> & ->). reflexivity.
Qed.

(** X9: whatever the calls answer, one check sends no mail or exactly one,
    and that one is the availability notification, from [self.smtp_email]
    to [self.notification_email]; nothing else is ever mailed by a check.
    In both variants. *)
Theorem X9_a_check_sends_at_most_the_one_notification :
  (forall E self,
      let mails := filter is_mail (trace_of (SnoopBot.check_appointments E self)) in
      mails = []
      \/ mails = [MailSent (SnoopBot.smtp_email self) (SnoopBot.notification_email self)
                    available_subject available_message])
  /\ (forall E self,
         let mails := filter is_mail (trace_of (VisaMonitor.check_appointments E self)) in
         mails = []
         \/ mails = [MailSent (VisaMonitor.smtp_email self)
                       (VisaMonitor.notification_email self)
                       available_subject available_message]).
Proof.
  split; intros E self mails; subst mails.
  - destruct (selenium_check_discreet _ E self eq_refl) as [Ht _].
    apply (mails_of_trace _ _ _ Ht).
    + intros ev Hm Hq. exact (check_discreet_mail _ ev Hm Hq).
    + apply selenium_check_at_most_one_mail.
  - destruct (playwright_check_discreet _ E self eq_refl) as [Ht _].
    apply (mails_of_trace _ _ _ Ht).
    + intros ev Hm Hq. exact (check_discreet_mail _ ev Hm Hq).
    + apply playwright_check_at_most_one_mail.
Qed.

(** The loop sends no more mails than it takes turns. *)
Lemma monitor_loop_mails {St check_env} (check : check_env -> M (St:=St) bool)
    check_interval envs :
  (forall E, at_most 1 is_mail (check E)) ->
  forall turns i, at_most turns is_mail (monitor_loop check check_interval envs turns i).
Proof.
  intros Hc. induction turns as [| turns IH]; intros i s.
  - cbn. unfold count. cbn. lia.
  - cbn [monitor_loop]. unfold bind.
    assert (Ht : at_most 1 is_mail (loop_turn check check_interval envs i)).
    { unfold loop_turn.
      apply at_most_try_except; [| unfold info, error; quiet_all].
      apply at_most_bind_last; [unfold info; quiet_all | intros _].
      apply at_most_bind_first; [apply Hc | intros _; unfold info; quiet_all]. }
    specialize (Ht s).
    destruct (loop_turn check check_interval envs i s) as [[t s1] [[|] | e]]; projs;
      try lia.
    + specialize (IH (S i) s1).
      destruct (monitor_loop check check_interval envs turns (S i) s1) as [[t' s2] r].
      projs. rewrite count_app. lia.
    + cbn. rewrite count_app. unfold count at 2. cbn. lia.
Qed.

(** X10: [run_monitor] sends at most one mail more than it has run checks:
    the start-up message and then at most one per check.  In both
    variants. *)
Theorem X10_run_monitor_mails_are_bounded :
  (forall start envs check_interval turns self,
      count is_mail (trace_of (SnoopBot.run_monitor start envs check_interval turns self))
      <= 1 + turns)
  /\ (forall start envs check_interval turns self,
         count is_mail
           (trace_of (VisaMonitor.run_monitor start envs check_interval turns self))
         <= 1 + turns).
Proof.
  split; intros start envs check_interval turns self.
  - unfold SnoopBot.run_monitor. unfold bind at 1. unfold info at 1, emit at 1.
    unfold bind at 1.
    pose proof (send_notification_at_most_one SnoopBot.smtp_email
                  SnoopBot.notification_email start started_subject started_message self)
      as Hs.
    unfold SnoopBot.send_notification.
    destruct (send_notification _ _ start started_subject started_message self)
      as [[t s1] [[] | e]]; projs.
    + pose proof (monitor_loop_mails SnoopBot.check_appointments check_interval envs
                    selenium_check_at_most_one_mail turns 0 s1) as Hl.
      destruct (monitor_loop _ _ _ turns 0 s1) as [[t' s2] r]. projs.
      rewrite !count_app. unfold count at 1. cbn. lia.
    + rewrite count_app. unfold count at 1. cbn. lia.
  - unfold VisaMonitor.run_monitor. unfold bind at 1. unfold info at 1, emit at 1.
    unfold bind at 1.
    pose proof (send_notification_at_most_one VisaMonitor.smtp_email
                  VisaMonitor.notification_email start started_subject started_message
                  self) as Hs.
    unfold VisaMonitor.send_notification.
    destruct (send_notification _ _ start started_subject started_message self)
      as [[t s1] [[] | e]]; projs.
    + pose proof (monitor_loop_mails VisaMonitor.check_appointments check_interval envs
                    playwright_check_at_most_one_mail turns 0 s1) as Hl.
      destruct (monitor_loop _ _ _ turns 0 s1) as [[t' s2] r]. projs.
      rewrite !count_app. unfold count at 1. cbn. lia.
    + rewrite count_app. unfold count at 1. cbn. lia.
Qed.

(** ** Browser sessions *)

Lemma sessions_app live t1 t2 :
  sessions live (t1 ++ t2)
  = match sessions live t1 with
    | Some live' => sessions live' t2
    | None => None
    end.
Proof.
  revert live. induction t1 as [| ev t1 IH]; intros live; [reflexivity |].
  destruct ev; cbn; try apply IH. destruct live; [reflexivity | apply IH].
Qed.

Lemma sessions_quiet live t : count session_event t = 0 -> sessions live t = Some live.
Proof.
  induction t as [| ev t IH]; [reflexivity |].
  rewrite count_cons. destruct ev; cbn; intros H; try discriminate H; apply IH; exact H.
Qed.

Section BalancedFacts.
Context {St : Type}.

Lemma balanced_quiet {A} P (m : M (St:=St) A) : quiet session_event P m -> balanced m.
Proof. intros H s. apply sessions_quiet. apply H. Qed.

Lemma balanced_bind {A B} (m : M (St:=St) A) (f : A -> M B) :
  balanced m -> (forall a, balanced (f a)) -> balanced (bind m f).
Proof.
  intros Hm Hf s. specialize (Hm s). unfold bind.
  destruct (m s) as [[t s1] [a | e]]; projs; [| exact Hm].
  specialize (Hf a s1). destruct (f a s1) as [[t' s2] r]. projs.
  rewrite sessions_app, Hm. exact Hf.
Qed.

Lemma balanced_try_except {A} (m : M (St:=St) A) h :
  balanced m -> (forall e k, h e = Some k -> balanced k) -> balanced (try_except m h).
Proof.
  intros Hm Hh s. specialize (Hm s). unfold try_except.
  destruct (m s) as [[t s1] [a | e]]; projs; [exact Hm |].
  destruct (h e) as [k |] eqn:Hk; [| exact Hm].
  specialize (Hh e k Hk s1). destruct (k s1) as [[t' s2] r]. projs.
  rewrite sessions_app, Hm. exact Hh.
Qed.

(** The loop is balanced when its check is. *)
Lemma balanced_monitor_loop {check_env} (check : check_env -> M (St:=St) bool)
    check_interval envs :
  (forall E, balanced (check E)) ->
  forall turns i, balanced (monitor_loop check check_interval envs turns i).
Proof.
  intros Hc. induction turns as [| turns IH]; intros i.
  - intros s. reflexivity.
  - cbn [monitor_loop]. apply balanced_bind.
    + unfold loop_turn. apply balanced_try_except.
      * apply balanced_bind; [apply (balanced_quiet (fun _ => True)); unfold info; quiet_all |].
        intros _. apply balanced_bind; [apply Hc |].
        intros _. apply (balanced_quiet (fun _ => True)). unfold info. quiet_all.
      * intros e k Hk. apply (balanced_quiet (fun _ => True)).
        revert e k Hk. change (quiet_handler (St:=St) session_event (fun _ => True)
          (orelse
             (except KeyboardInterrupt (fun _ =>
                info "Monitor stopped by user" ;; ret false))
             (except Exception (fun e =>
                error ("Error in monitor loop: " +++ str e) ;;
                emit (Sleep check_interval) ;;
                call (sleep_after_error (envs i)) ;; ret true)))).
        unfold info, error. quiet_all.
    + intros [|]; [apply IH | intros s; reflexivity].
Qed.

End BalancedFacts.

Lemma selenium_pipeline_sessions P E :
  quiet session_event P (SnoopBot.check_pipeline E).
Proof. unfold_selenium. quiet_all. Qed.

Lemma playwright_pipeline_sessions P E :
  quiet session_event P (VisaMonitor.check_pipeline E).
Proof. unfold_playwright. quiet_all. Qed.

(** The [try/except] of [check_appointments] after a browser [h] was
    started: no other session event, and [h] is in [self.driver]. *)
Lemma selenium_guarded_sessions E s h :
  SnoopBot.webdriver_Chrome E = Ok h ->
  exists t s' r,
    try_except (SnoopBot.check_appointments_body E)
      (except Exception (fun e => error ("Check failed: " +++ str e) ;; ret false)) s
    = (BrowserStarted h :: t, s', r)
    /\ count session_event t = 0
    /\ SnoopBot.driver s' = Some h.
Proof.
  intros H. destruct (selenium_setup E s h H) as [r Hr].
  unfold try_except, SnoopBot.check_appointments_body, bind. rewrite Hr.
  destruct r as [[] | e].
  - destruct (selenium_pipeline_sessions (fun s => SnoopBot.driver s = Some h) E
                (SnoopBot.set_driver h s)) as [Hc Hp].
    specialize (Hp eq_refl).
    destruct (SnoopBot.check_pipeline E (SnoopBot.set_driver h s)) as [[t' s2] [b | e]];
      projs.
    + exists t', s2, (Ok b). auto.
    + unfold except. destruct (isinstance e Exception); cbn.
      * eexists _, _, _. split; [reflexivity |]. rewrite count_app, Hc. auto.
      * eexists _, _, _. split; [reflexivity |]. auto.
  - unfold except. destruct (isinstance e Exception); cbn;
      eexists _, _, _; (split; [reflexivity |]); auto.
Qed.

Lemma playwright_guarded_sessions E s h :
  VisaMonitor.sync_playwright_start E = Ok tt ->
  VisaMonitor.chromium_launch E = Ok h ->
  exists t s' r,
    try_except (VisaMonitor.check_appointments_body E)
      (except Exception (fun e => error ("Check failed: " +++ str e) ;; ret false)) s
    = (BrowserStarted h :: t, s', r)
    /\ count session_event t = 0
    /\ VisaMonitor.browser s' = Some h.
Proof.
  intros H0 H. destruct (playwright_open E s h H0 H) as (s1 & r & Hr & Hb).
  unfold try_except, VisaMonitor.check_appointments_body, bind. rewrite Hr.
  destruct r as [[] | e].
  - destruct (playwright_pipeline_sessions (fun s => VisaMonitor.browser s = Some h) E s1)
      as [Hc Hp].
    specialize (Hp Hb).
    destruct (VisaMonitor.check_pipeline E s1) as [[t' s2] [b | e]]; projs.
    + exists t', s2, (Ok b). auto.
    + unfold except. destruct (isinstance e Exception); cbn.
      * eexists _, _, _. split; [reflexivity |]. rewrite count_app, Hc. auto.
      * eexists _, _, _. split; [reflexivity |]. auto.
  - unfold except. destruct (isinstance e Exception); cbn;
      eexists _, _, _; (split; [reflexivity |]); auto.
Qed.

(** When the browser cannot be launched, the statements under [try] end
    at once and leave the monitor as it was. *)
Lemma selenium_body_without_browser E s e :
  SnoopBot.webdriver_Chrome E = Raise e ->
  SnoopBot.check_appointments_body E s = ([], s, Raise e).
Proof.
  intros H. unfold SnoopBot.check_appointments_body, SnoopBot.setup_driver.
  unfold_monad. rewrite H. reflexivity.
Qed.

Lemma playwright_body_without_playwright E s e :
  VisaMonitor.sync_playwright_start E = Raise e ->
  VisaMonitor.check_appointments_body E s = ([], s, Raise e).
Proof.
  intros H. unfold VisaMonitor.check_appointments_body, VisaMonitor.open_browser.
  unfold_monad. rewrite H. reflexivity.
Qed.

Lemma playwright_body_without_browser E s e :
  VisaMonitor.sync_playwright_start E = Ok tt ->
  VisaMonitor.chromium_launch E = Raise e ->
  VisaMonitor.check_appointments_body E s = ([], s, Raise e).
Proof.
  intros H0 H. unfold VisaMonitor.check_appointments_body, VisaMonitor.open_browser.
  unfold_monad. rewrite H0, H. reflexivity.
Qed.

Lemma selenium_check_balanced E : balanced (SnoopBot.check_appointments E).
Proof.
  intros s. unfold SnoopBot.check_appointments, try_finally.
  destruct (SnoopBot.webdriver_Chrome E) as [h | e] eqn:Hl.
  - destruct (selenium_guarded_sessions E s h Hl) as (t & s' & r & -> & Hc & Hd).
    unfold SnoopBot.release. unfold_monad. rewrite Hd. cbn.
    destruct (SnoopBot.driver_quit E) as [[] | e]; cbn;
      rewrite sessions_app, (sessions_quiet _ _ Hc); reflexivity.
  - unfold try_except. rewrite (selenium_body_without_browser E s e Hl).
    unfold SnoopBot.release, except. unfold_monad.
    destruct (isinstance e Exception); cbn;
      destruct (SnoopBot.driver s); cbn;
      try destruct (SnoopBot.driver_quit E) as [[] | e']; reflexivity.
Qed.

Lemma playwright_check_balanced E : balanced (VisaMonitor.check_appointments E).
Proof.
  intros s. unfold VisaMonitor.check_appointments, try_finally.
  destruct (VisaMonitor.sync_playwright_start E) as [[] | e0] eqn:H0.
  - destruct (VisaMonitor.chromium_launch E) as [h | e] eqn:Hl.
    + destruct (playwright_guarded_sessions E s h H0 Hl) as (t & s' & r & -> & Hc & Hd).
      unfold VisaMonitor.release. unfold_monad. rewrite Hd, H0. cbn.
      destruct (VisaMonitor.browser_close E) as [[] | e]; cbn;
        [destruct (VisaMonitor.playwright_stop E) as [[] | e]; cbn |];
        rewrite sessions_app, (sessions_quiet _ _ Hc); reflexivity.
    + unfold try_except. rewrite (playwright_body_without_browser E s e H0 Hl).
      unfold VisaMonitor.release, except. unfold_monad. rewrite H0.
      destruct (isinstance e Exception); cbn;
        destruct (VisaMonitor.browser s); cbn;
        try destruct (VisaMonitor.browser_close E) as [[] | e']; cbn;
        try destruct (VisaMonitor.playwright_stop E) as [[] | e'']; reflexivity.
  - unfold try_except. rewrite (playwright_body_without_playwright E s e0 H0).
    unfold VisaMonitor.release, except. unfold_monad. rewrite H0.
    destruct (isinstance e0 Exception); cbn;
      destruct (VisaMonitor.browser s); cbn;
      try destruct (VisaMonitor.browser_close E) as [[] | e']; reflexivity.
Qed.

(** X11: browser sessions never overlap.  In the whole trace of
    [run_monitor], for any number of turns and any answers, no browser is
    started while a browser started earlier has not been released, and at
    the end none is left unreleased.  In both variants. *)
Theorem X11_sessions_never_overlap :
  (forall start envs check_interval turns self,
      sessions false
        (trace_of (SnoopBot.run_monitor start envs check_interval turns self))
      = Some false)
  /\ (forall start envs check_interval turns self,
         sessions false
           (trace_of (VisaMonitor.run_monitor start envs check_interval turns self))
         = Some false).
Proof.
  split; intros start envs check_interval turns.
  - unfold SnoopBot.run_monitor.
    apply balanced_bind; [apply (balanced_quiet (fun _ => True)); unfold info; quiet_all |].
    intros _. apply balanced_bind.
    + apply (balanced_quiet (fun _ => True)).
      unfold SnoopBot.send_notification, send_notification, send_notification_body,
        info, error. quiet_all.
    + intros _. apply balanced_monitor_loop. exact selenium_check_balanced.
  - unfold VisaMonitor.run_monitor.
    apply balanced_bind; [apply (balanced_quiet (fun _ => True)); unfold info; quiet_all |].
    intros _. apply balanced_bind.
    + apply (balanced_quiet (fun _ => True)).
      unfold VisaMonitor.send_notification, send_notification, send_notification_body,
        info, error. quiet_all.
    + intros _. apply balanced_monitor_loop. exact playwright_check_balanced.
Qed.

(** ** A browser that cannot be launched *)

(** A check that started [h] leaves [h] in [self.driver]: nothing sets the
    attribute back to [None]. *)
Lemma selenium_check_keeps_handle E s h :
  SnoopBot.webdriver_Chrome E = Ok h ->
  SnoopBot.driver (state_of (SnoopBot.check_appointments E s)) = Some h.
Proof.
  intros H. destruct (selenium_guarded_sessions E s h H) as (t & s' & r & Hrun & _ & Hd).
  unfold SnoopBot.check_appointments, try_finally. rewrite Hrun.
  unfold SnoopBot.release. unfold_monad. rewrite Hd. cbn.
  destruct (SnoopBot.driver_quit E) as [[] | e]; exact Hd.
Qed.

Lemma playwright_check_keeps_handle E s h :
  VisaMonitor.sync_playwright_start E = Ok tt ->
  VisaMonitor.chromium_launch E = Ok h ->
  VisaMonitor.browser (state_of (VisaMonitor.check_appointments E s)) = Some h.
Proof.
  intros H0 H.
  destruct (playwright_guarded_sessions E s h H0 H) as (t & s' & r & Hrun & _ & Hd).
  unfold VisaMonitor.check_appointments, try_finally. rewrite Hrun.
  unfold VisaMonitor.release. unfold_monad. rewrite Hd, H0. cbn.
  destruct (VisaMonitor.browser_close E) as [[] | e]; cbn;
    [destruct (VisaMonitor.playwright_stop E) as [[] | e]; cbn |]; exact Hd.
Qed.

(** X12: the Selenium check when [webdriver.Chrome] raises an ordinary
    error.  On a monitor that has not run a check it logs the failure and
    returns [False], and no browser is touched.  On a monitor whose earlier
    check had started a browser [h], [self.driver] still holds [h], and
    this check calls [quit] on [h] a second time; what the check returns is
    then up to that call. *)
Theorem X12_selenium_launch_failure E self e :
  SnoopBot.webdriver_Chrome E = Raise e ->
  isinstance e Exception = true ->
  (SnoopBot.driver self = None ->
   SnoopBot.check_appointments E self
   = ([Log ERROR ("Check failed: " +++ str e)], self, Ok false))
  /\ (forall E0 self0 h,
         SnoopBot.webdriver_Chrome E0 = Ok h ->
         self = state_of (SnoopBot.check_appointments E0 self0) ->
         SnoopBot.check_appointments E self
         = ([Log ERROR ("Check failed: " +++ str e); BrowserReleased h], self,
            match SnoopBot.driver_quit E with
            | Ok _ => Ok false
            | Raise e' => Raise e'
            end)).
Proof.
  intros Hl He.
  assert (Hrun : try_except (SnoopBot.check_appointments_body E)
                   (except Exception (fun e => error ("Check failed: " +++ str e) ;; ret false))
                   self
                 = ([Log ERROR ("Check failed: " +++ str e)], self, Ok false)).
  { unfold try_except. rewrite (selenium_body_without_browser E self e Hl).
    unfold except. rewrite He. reflexivity. }
  split.
  - intros Hd. unfold SnoopBot.check_appointments, try_finally. rewrite Hrun.
    unfold SnoopBot.release. unfold_monad. rewrite Hd. reflexivity.
  - intros E0 self0 h H0 Hs.
    pose proof (selenium_check_keeps_handle E0 self0 h H0) as Hd. rewrite <- Hs in Hd.
    unfold SnoopBot.check_appointments, try_finally. rewrite Hrun.
    unfold SnoopBot.release. unfold_monad. rewrite Hd. cbn.
    destruct (SnoopBot.driver_quit E) as [[] | e']; reflexivity.
Qed.

Lemma X12_selenium_launch_failure_witness :
  SnoopBot.check_appointments (selenium_fault 0 no_browser) selenium_monitor
  = ([Log ERROR ("Check failed: " +++ str no_browser)], selenium_monitor, Ok false)
  /\ (let self := state_of (SnoopBot.check_appointments selenium_open selenium_monitor) in
      SnoopBot.check_appointments (selenium_fault 0 no_browser) self
      = ([Log ERROR ("Check failed: " +++ str no_browser); BrowserReleased 1], self,
         Ok false)).
Proof.
  split.
  - apply (proj1 (X12_selenium_launch_failure (selenium_fault 0 no_browser)
                    selenium_monitor no_browser eq_refl eq_refl)).
    reflexivity.
  - apply (proj2 (X12_selenium_launch_failure (selenium_fault 0 no_browser)
                    (state_of (SnoopBot.check_appointments selenium_open selenium_monitor))
                    no_browser eq_refl eq_refl) selenium_open selenium_monitor 1);
      reflexivity.
Defined.

(** X13: the Playwright check when the browser cannot be launched, on a
    monitor whose earlier check had started a browser [h]: [h] is closed a
    second time.  [playwright.stop()] follows when it was [chromium.launch]
    that raised, and is not called when [sync_playwright().start()] itself
    raised. *)
Theorem X13_playwright_launch_failure E E0 self0 h e :
  VisaMonitor.sync_playwright_start E0 = Ok tt ->
  VisaMonitor.chromium_launch E0 = Ok h ->
  isinstance e Exception = true ->
  let self := state_of (VisaMonitor.check_appointments E0 self0) in
  (VisaMonitor.sync_playwright_start E = Raise e ->
   VisaMonitor.check_appointments E self
   = ([Log ERROR ("Check failed: " +++ str e); BrowserReleased h], self,
      match VisaMonitor.browser_close E with
      | Ok _ => Ok false
      | Raise e' => Raise e'
      end))
  /\ (VisaMonitor.sync_playwright_start E = Ok tt ->
      VisaMonitor.chromium_launch E = Raise e ->
      returned (VisaMonitor.browser_close E) = true ->
      VisaMonitor.check_appointments E self
      = ([Log ERROR ("Check failed: " +++ str e); BrowserReleased h; PlaywrightStopped],
         self,
         match VisaMonitor.playwright_stop E with
         | Ok _ => Ok false
         | Raise e' => Raise e'
         end)).
Proof.
  intros H0 Hh He self.
  pose proof (playwright_check_keeps_handle E0 self0 h H0 Hh) as Hd. fold self in Hd.
  split.
  - intros Hs. unfold VisaMonitor.check_appointments, try_finally, try_except.
    rewrite (playwright_body_without_playwright E self e Hs).
    unfold except. rewrite He. cbn.
    unfold VisaMonitor.release. unfold_monad. rewrite Hd, Hs. cbn.
    destruct (VisaMonitor.browser_close E) as [[] | e']; reflexivity.
  - intros Hs Hl Hc. unfold VisaMonitor.check_appointments, try_finally, try_except.
    rewrite (playwright_body_without_browser E self e Hs Hl).
    unfold except. rewrite He. cbn.
    unfold VisaMonitor.release. unfold_monad. rewrite Hd, Hs. cbn.
    destruct (VisaMonitor.browser_close E) as [[] | e']; [| discriminate Hc]. cbn.
    destruct (VisaMonitor.playwright_stop E) as [[] | e']; reflexivity.
Qed.

Lemma X13_playwright_launch_failure_witness :
  let self := state_of (VisaMonitor.check_appointments playwright_open_site
                          playwright_monitor) in
  VisaMonitor.check_appointments (playwright_fault 0 no_browser) self
  = ([Log ERROR ("Check failed: " +++ str no_browser); BrowserReleased 1], self, Ok false)
  /\ VisaMonitor.check_appointments (playwright_fault 1 no_browser) self
     = ([Log ERROR ("Check failed: " +++ str no_browser); BrowserReleased 1;
         PlaywrightStopped], self, Ok false).
Proof.
  split.
  - apply (proj1 (X13_playwright_launch_failure (playwright_fault 0 no_browser)
                    playwright_open_site playwright_monitor 1 no_browser
                    eq_refl eq_refl eq_refl)).
    reflexivity.
  - apply (proj2 (X13_playwright_launch_failure (playwright_fault 1 no_browser)
                    playwright_open_site playwright_monitor 1 no_browser
                    eq_refl eq_refl eq_refl)); reflexivity.
Defined.

(** X14: in a Playwright check that started a browser,
    [playwright.stop()] is called once when [browser.close()] returned and
    not at all when [browser.close()] raised; in that case the check raises
    what [close] raised, whatever it was about to return. *)
Theorem X14_playwright_stop_follows_close E self h :
  VisaMonitor.sync_playwright_start E = Ok tt ->
  VisaMonitor.chromium_launch E = Ok h ->
  count is_stop (trace_of (VisaMonitor.check_appointments E self))
  = (if returned (VisaMonitor.browser_close E) then 1 else 0)
  /\ (forall e, VisaMonitor.browser_close E = Raise e ->
        value_of (VisaMonitor.check_appointments E self) = Raise e).
Proof.
  intros H0 H.
  destruct (playwright_guarded_sessions E self h H0 H) as (t & s' & r & Hrun & Hc & Hd).
  assert (Hstop : count is_stop t = 0).
  { assert (Hle : count is_stop t <= count session_event t).
    { clear. induction t as [| ev t IH]; [reflexivity |].
      rewrite !count_cons. destruct ev; cbn; lia. }
    lia. }
  unfold VisaMonitor.check_appointments, try_finally. rewrite Hrun.
  unfold VisaMonitor.release. unfold_monad. rewrite Hd, H0. cbn.
  destruct (VisaMonitor.browser_close E) as [[] | e]; cbn.
  - destruct (VisaMonitor.playwright_stop E) as [[] | e]; cbn;
      (split; [| intros e' He'; discriminate He']);
      rewrite count_cons, count_app, Hstop; reflexivity.
  - split; [| intros e' [= <-]; reflexivity].
    rewrite count_cons, count_app, Hstop. reflexivity.
Qed.

Lemma X14_playwright_stop_follows_close_witness :
  (count is_stop (trace_of (VisaMonitor.check_appointments playwright_close_fails
                              playwright_monitor))
   = (if returned (VisaMonitor.browser_close playwright_close_fails) then 1 else 0)
   /\ value_of (VisaMonitor.check_appointments playwright_close_fails playwright_monitor)
      = Raise session_lost)
  /\ count is_stop (trace_of (VisaMonitor.check_appointments playwright_open_site
                                playwright_monitor)) = 1.
Proof.
  split; [split |].
  - apply (X14_playwright_stop_follows_close playwright_close_fails playwright_monitor 1);
      reflexivity.
  - apply (X14_playwright_stop_follows_close playwright_close_fails playwright_monitor 1);
      reflexivity.
  - apply (X14_playwright_stop_follows_close playwright_open_site playwright_monitor 1);
      reflexivity.
Defined.

(** ** What can escape from a check *)

(** [try: m except Exception: k] lets no ordinary error out when [k]
    raises none. *)
Lemma guarded_raises_no_ordinary {St A} (m : M (St:=St) A) k s e :
  (forall e' s', value_of (k e' s') <> Raise e) ->
  value_of (try_except m (except Exception k) s) = Raise e ->
  isinstance e Exception = false.
Proof.
  intros Hk. unfold try_except, except.
  destruct (m s) as [[t s1] [a | e1]]; projs; [discriminate |].
  destruct (isinstance e1 Exception) eqn:He1.
  - specialize (Hk e1 s1). destruct (k e1 s1) as [[t' s2] r]. projs.
    intros Hr. contradiction.
  - projs. intros [= <-]. exact He1.
Qed.

(** X15: an ordinary error leaves [check_appointments] only through the
    [finally] clause.  If the Selenium check raises an instance of
    [Exception], then [driver.quit()] raised it; if the Playwright check
    does, then [browser.close()] or [playwright.stop()] raised it; and the
    same holds for what [check_once.py] raises. *)
Theorem X15_ordinary_errors_escape_only_from_cleanup :
  (forall E self e,
      value_of (SnoopBot.check_appointments E self) = Raise e ->
      isinstance e Exception = true ->
      SnoopBot.driver_quit E = Raise e)
  /\ (forall E self e,
         value_of (VisaMonitor.check_appointments E self) = Raise e ->
         isinstance e Exception = true ->
         VisaMonitor.browser_close E = Raise e \/ VisaMonitor.playwright_stop E = Raise e)
  /\ (forall c E e,
         value_of (CheckOnce.main c E) = Raise e ->
         isinstance e Exception = true ->
         VisaMonitor.browser_close E = Raise e \/ VisaMonitor.playwright_stop E = Raise e).
Proof.
  assert (Hpw : forall E self e,
             value_of (VisaMonitor.check_appointments E self) = Raise e ->
             isinstance e Exception = true ->
             VisaMonitor.browser_close E = Raise e
             \/ VisaMonitor.playwright_stop E = Raise e).
  { intros E self e Hv He. unfold VisaMonitor.check_appointments, try_finally in Hv.
    pose proof (guarded_raises_no_ordinary (VisaMonitor.check_appointments_body E)
                  (fun e => error ("Check failed: " +++ str e) ;; ret false) self e) as Hg.
    destruct (try_except _ _ self) as [[t s1] r]. projs.
    unfold VisaMonitor.release in Hv. unfold_monad.
    destruct (VisaMonitor.browser s1); cbn in Hv;
      destruct (VisaMonitor.browser_close E) as [[] | e1]; cbn in Hv;
      destruct (returned (VisaMonitor.sync_playwright_start E)); cbn in Hv;
      try destruct (VisaMonitor.playwright_stop E) as [[] | e2]; cbn in Hv;
      try (injection Hv as <-; auto; fail);
      (rewrite Hg in He; [discriminate He | intros; cbn; discriminate | exact Hv]). }
  split; [| split; [exact Hpw |]].
  - intros E self e Hv He. unfold SnoopBot.check_appointments, try_finally in Hv.
    pose proof (guarded_raises_no_ordinary (SnoopBot.check_appointments_body E)
                  (fun e => error ("Check failed: " +++ str e) ;; ret false) self e) as Hg.
    destruct (try_except _ _ self) as [[t s1] r]. projs.
    unfold SnoopBot.release in Hv. unfold_monad.
    destruct (SnoopBot.driver s1); cbn in Hv;
      destruct (SnoopBot.driver_quit E) as [[] | e1]; cbn in Hv;
      try (injection Hv as <-; reflexivity);
      (rewrite Hg in He; [discriminate He | intros; cbn; discriminate | exact Hv]).
  - intros c E e Hv He. apply (Hpw E (VisaMonitor.init c) e); [| exact He].
    unfold CheckOnce.main in Hv. unfold bind at 1 in Hv. unfold info at 1, emit at 1 in Hv.
    unfold bind at 1 in Hv.
    destruct (VisaMonitor.check_appointments E (VisaMonitor.init c)) as [[t s1] [b | e1]];
      projs; [discriminate Hv | injection Hv as <-; reflexivity].
Qed.

Lemma X15_ordinary_errors_escape_only_from_cleanup_witness :
  SnoopBot.driver_quit selenium_quit_fails = Raise session_lost
  /\ (VisaMonitor.browser_close playwright_close_fails = Raise session_lost
      \/ VisaMonitor.playwright_stop playwright_close_fails = Raise session_lost)
  /\ (VisaMonitor.browser_close (playwright_fault 30 session_lost) = Raise session_lost
      \/ VisaMonitor.playwright_stop (playwright_fault 30 session_lost)
         = Raise session_lost).
Proof.
  split; [| split].
  - apply (proj1 X15_ordinary_errors_escape_only_from_cleanup selenium_quit_fails
             selenium_monitor session_lost); reflexivity.
  - apply (proj1 (proj2 X15_ordinary_errors_escape_only_from_cleanup)
             playwright_close_fails playwright_monitor session_lost); reflexivity.
  - apply (proj2 (proj2 X15_ordinary_errors_escape_only_from_cleanup)
             no_credentials (playwright_fault 30 session_lost) session_lost); reflexivity.
Defined.

(** ** A step that fails *)

Lemma no_step_event_is_any ev : step_event ev = true -> (fun _ : event => false) ev = false.
Proof. reflexivity. Qed.

(** The three step methods leave the monitor as it is. *)
Lemma selenium_steps_keep_state E s :
  state_of (SnoopBot.login E s) = s
  /\ state_of (SnoopBot.navigate_to_reschedule E s) = s
  /\ state_of (SnoopBot.check_reschedule_availability E s) = s.
Proof.
  destruct (selenium_steps_quiet (fun _ => false) (fun x => x = s) E no_step_event_is_any)
    as (Hl & Hn & Hp).
  repeat split; [apply Hl | apply Hn | apply Hp]; reflexivity.
Qed.

Lemma playwright_steps_keep_state E s :
  state_of (VisaMonitor.login E s) = s
  /\ state_of (VisaMonitor.navigate_to_reschedule E s) = s
  /\ state_of (VisaMonitor.check_reschedule_availability E s) = s.
Proof.
  destruct (playwright_steps_quiet (fun _ => false) (fun x => x = s) E no_step_event_is_any)
    as (Hl & Hn & Hp).
  repeat split; [apply Hl | apply Hn | apply Hp]; reflexivity.
Qed.

(** X16: a failed step of the Selenium check goes straight to the release
    of the browser.  When [login] returns [False] the check consists of the
    start of the browser, the events of [login] and the release, and
    returns [False] if [quit] returns; when [navigate_to_reschedule]
    returns [False] it consists of the start, the events of the two steps
    and the release.  The later steps are not run and no mail is sent. *)
Theorem X16_selenium_failed_step_skips_the_rest E self h s0 :
  SnoopBot.setup_driver E self = ([BrowserStarted h], s0, Ok tt) ->
  (forall t1,
      SnoopBot.login E s0 = (t1, s0, Ok false) ->
      SnoopBot.check_appointments E self
      = (BrowserStarted h :: t1 ++ [BrowserReleased h], s0,
         match SnoopBot.driver_quit E with
         | Ok _ => Ok false
         | Raise e => Raise e
         end))
  /\ (forall t1 t2,
         SnoopBot.login E s0 = (t1, s0, Ok true) ->
         SnoopBot.navigate_to_reschedule E s0 = (t2, s0, Ok false) ->
         SnoopBot.check_appointments E self
         = (BrowserStarted h :: t1 ++ t2 ++ [BrowserReleased h], s0,
            match SnoopBot.driver_quit E with
            | Ok _ => Ok false
            | Raise e => Raise e
            end)).
Proof.
  intros Hs.
  assert (Hd : SnoopBot.driver s0 = Some h).
  { assert (Hl : SnoopBot.webdriver_Chrome E = Ok h).
    { revert Hs. unfold SnoopBot.setup_driver. unfold_monad.
      destruct (SnoopBot.webdriver_Chrome E) as [h' | e]; cbn; [| discriminate].
      destruct (SnoopBot.execute_cdp_cmd E), (SnoopBot.hide_webdriver E),
        (SnoopBot.implicitly_wait E); cbn; intros [= <- _]; reflexivity. }
    destruct (selenium_setup E self h Hl) as [r Hr]. rewrite Hs in Hr.
    injection Hr as -> _. reflexivity. }
  split.
  - intros t1 H1.
    unfold SnoopBot.check_appointments, try_finally, try_except,
      SnoopBot.check_appointments_body, SnoopBot.check_pipeline.
    unfold bind at 1. rewrite Hs. unfold bind at 1. rewrite H1. cbn.
    unfold SnoopBot.release. unfold_monad. rewrite Hd. cbn.
    destruct (SnoopBot.driver_quit E) as [[] | e]; rewrite ?app_nil_r; reflexivity.
  - intros t1 t2 H1 H2.
    unfold SnoopBot.check_appointments, try_finally, try_except,
      SnoopBot.check_appointments_body, SnoopBot.check_pipeline.
    unfold bind at 1. rewrite Hs. unfold bind at 1. rewrite H1. cbn.
    unfold bind at 1. rewrite H2. cbn.
    unfold SnoopBot.release. unfold_monad. rewrite Hd. cbn.
    destruct (SnoopBot.driver_quit E) as [[] | e];
      rewrite ?app_nil_r, <- ?app_assoc; reflexivity.
Qed.

Lemma X16_selenium_failed_step_skips_the_rest_witness :
  (exists t1,
      SnoopBot.check_appointments (selenium_fault 5 timed_out) selenium_monitor
      = (BrowserStarted 1 :: t1 ++ [BrowserReleased 1],
         SnoopBot.set_driver 1 selenium_monitor, Ok false))
  /\ (exists t1 t2,
         SnoopBot.check_appointments (selenium_fault 17 timed_out) selenium_monitor
         = (BrowserStarted 1 :: t1 ++ t2 ++ [BrowserReleased 1],
            SnoopBot.set_driver 1 selenium_monitor, Ok false)).
Proof.
  split.
  - eexists.
    apply (proj1 (X16_selenium_failed_step_skips_the_rest (selenium_fault 5 timed_out)
                    selenium_monitor 1 (SnoopBot.set_driver 1 selenium_monitor) eq_refl)).
    reflexivity.
  - eexists. eexists.
    apply (proj2 (X16_selenium_failed_step_skips_the_rest (selenium_fault 17 timed_out)
                    selenium_monitor 1 (SnoopBot.set_driver 1 selenium_monitor) eq_refl));
      reflexivity.
Defined.

(** ** Interrupts and sleeps in the continuous loop *)

Lemma interrupt_is_not_ordinary e :
  isinstance e KeyboardInterrupt = true -> isinstance e Exception = false.
Proof. destruct e as [[] msg]; cbv; congruence. Qed.

Section LoopEdges.
Context {St check_env : Type}.
Variable check : check_env -> M (St:=St) bool.
Variable check_interval : Z.
Variable envs : nat -> iter_env check_env.

Local Notation "'turn'" := (loop_turn check check_interval envs).
Local Notation "'loop'" := (monitor_loop check check_interval envs).
Local Notation "'starting'" := (Log INFO "Starting appointment check...").
Local Notation "'complete'" :=
  (Log INFO ("Check complete. Waiting " +++ str_int check_interval
             +++ " seconds until next check...")).

Lemma loop_breaks turns i s t s1 :
  turn i s = (t, s1, Ok false) -> loop (S turns) i s = (t, s1, Ok Broke).
Proof.
  intros H. cbn [monitor_loop]. unfold bind. rewrite H. cbn.
  rewrite app_nil_r. reflexivity.
Qed.

Lemma loop_raises turns i s t s1 e :
  turn i s = (t, s1, Raise e) -> loop (S turns) i s = (t, s1, Raise e).
Proof. intros H. cbn [monitor_loop]. unfold bind. rewrite H. reflexivity. Qed.

Lemma interrupted_check turns i s tc s1 e :
  check (during_check (envs i)) s = (tc, s1, Raise e) ->
  isinstance e KeyboardInterrupt = true ->
  loop (S turns) i s
  = (starting :: tc ++ [Log INFO "Monitor stopped by user"], s1, Ok Broke).
Proof.
  intros Hc He. apply loop_breaks.
  unfold loop_turn. unfold_monad. cbn. rewrite Hc. cbn. rewrite He. reflexivity.
Qed.

Lemma interrupted_sleep turns i s tc s1 b e :
  check (during_check (envs i)) s = (tc, s1, Ok b) ->
  sleep_after_check (envs i) = Raise e ->
  isinstance e KeyboardInterrupt = true ->
  loop (S turns) i s
  = (starting :: tc ++ [complete; Sleep check_interval;
                        Log INFO "Monitor stopped by user"], s1, Ok Broke).
Proof.
  intros Hc Hs He. apply loop_breaks.
  unfold loop_turn. unfold_monad. cbn. rewrite Hc. cbn. rewrite Hs. cbn.
  rewrite He. rewrite <- app_assoc. reflexivity.
Qed.

Lemma failed_sleep i s tc s1 b e :
  check (during_check (envs i)) s = (tc, s1, Ok b) ->
  sleep_after_check (envs i) = Raise e ->
  isinstance e Exception = true ->
  turn i s
  = (starting :: tc ++ [complete; Sleep check_interval;
                        Log ERROR ("Error in monitor loop: " +++ str e);
                        Sleep check_interval],
     s1,
     match sleep_after_error (envs i) with
     | Ok _ => Ok true
     | Raise e' => Raise e'
     end).
Proof.
  intros Hc Hs He. pose proof (ordinary_not_interrupt e He) as Hk.
  unfold loop_turn. unfold_monad. cbn. rewrite Hc. cbn. rewrite Hs. cbn.
  rewrite Hk, He.
  destruct (sleep_after_error (envs i)) as [[] | e']; rewrite <- app_assoc; reflexivity.
Qed.

Lemma failed_backoff turns i s tc s1 e e' :
  check (during_check (envs i)) s = (tc, s1, Raise e) ->
  isinstance e Exception = true ->
  sleep_after_error (envs i) = Raise e' ->
  loop (S turns) i s
  = (starting :: tc ++ [Log ERROR ("Error in monitor loop: " +++ str e);
                        Sleep check_interval], s1, Raise e').
Proof.
  intros Hc He Hs. apply loop_raises.
  rewrite (loop_turn_on_error check check_interval envs i s tc s1 e Hc He), Hs.
  reflexivity.
Qed.

Lemma continuing_turn_slept i s t s1 :
  turn i s = (t, s1, Ok true) -> exists t', t = t' ++ [Sleep check_interval].
Proof.
  unfold loop_turn. unfold_monad. cbn.
  destruct (check (during_check (envs i)) s) as [[tc s2] [b | e]]; cbn.
  - destruct (sleep_after_check (envs i)) as [[] | e]; cbn.
    + intros [= <- _]. exists (starting :: tc ++ [complete]).
      cbn. rewrite <- app_assoc. reflexivity.
    + destruct (isinstance e KeyboardInterrupt); cbn; [discriminate |].
      destruct (isinstance e Exception); cbn; [| discriminate].
      destruct (sleep_after_error (envs i)) as [[] | e']; cbn; [| discriminate].
      intros [= <- _].
      exists (starting :: tc ++ [complete; Sleep check_interval;
                                 Log ERROR ("Error in monitor loop: " +++ str e)]).
      cbn. rewrite <- !app_assoc. reflexivity.
  - destruct (isinstance e KeyboardInterrupt); cbn; [discriminate |].
    destruct (isinstance e Exception); cbn; [| discriminate].
    destruct (sleep_after_error (envs i)) as [[] | e']; cbn; [| discriminate].
    intros [= <- _].
    exists (starting :: tc ++ [Log ERROR ("Error in monitor loop: " +++ str e)]).
    cbn. rewrite <- app_assoc. reflexivity.
Qed.

End LoopEdges.

(** X17: a [KeyboardInterrupt] that reaches the loop from the check, or
    from the sleep that follows a check, stops the monitor in good order:
    the turn logs "Monitor stopped by user", the loop is left by [break],
    and no further check is run, however many turns were to come.  This is
    the loop of both variants, for any check. *)
Theorem X17_interrupt_stops_the_loop {St check_env} (check : check_env -> M (St:=St) bool)
    check_interval envs turns i s tc s1 e :
  isinstance e KeyboardInterrupt = true ->
  (check (during_check (envs i)) s = (tc, s1, Raise e) ->
   monitor_loop check check_interval envs (S turns) i s
   = (Log INFO "Starting appointment check..."
        :: tc ++ [Log INFO "Monitor stopped by user"], s1, Ok Broke))
  /\ (forall b,
         check (during_check (envs i)) s = (tc, s1, Ok b) ->
         sleep_after_check (envs i) = Raise e ->
         monitor_loop check check_interval envs (S turns) i s
         = (Log INFO "Starting appointment check..."
              :: tc ++ [Log INFO ("Check complete. Waiting " +++ str_int check_interval
                                  +++ " seconds until next check...");
                        Sleep check_interval;
                        Log INFO "Monitor stopped by user"], s1, Ok Broke)).
Proof.
  intros He. split.
  - intros Hc. exact (interrupted_check check check_interval envs turns i s tc s1 e Hc He).
  - intros b Hc Hs.
    exact (interrupted_sleep check check_interval envs turns i s tc s1 b e Hc Hs He).
Qed.

Lemma X17_interrupt_stops_the_loop_witness :
  (exists tc s1,
      monitor_loop SnoopBot.check_appointments 30
        (fun _ => mkIterEnv (selenium_fault 5 interrupt) Ok_tt Ok_tt) 3 0 selenium_monitor
      = (Log INFO "Starting appointment check..."
           :: tc ++ [Log INFO "Monitor stopped by user"], s1, Ok Broke))
  /\ (exists tc s1,
         monitor_loop VisaMonitor.check_appointments 1800
           (fun _ => mkIterEnv playwright_open_site (Raise interrupt) Ok_tt) 3 0
           playwright_monitor
         = (Log INFO "Starting appointment check..."
              :: tc ++ [Log INFO ("Check complete. Waiting " +++ str_int 1800
                                  +++ " seconds until next check...");
                        Sleep 1800;
                        Log INFO "Monitor stopped by user"], s1, Ok Broke)).
Proof.
  split; eexists; eexists.
  - apply (proj1 (X17_interrupt_stops_the_loop SnoopBot.check_appointments 30%Z
                    (fun _ => mkIterEnv (selenium_fault 5 interrupt) Ok_tt Ok_tt)
                    2 0 selenium_monitor _ _ interrupt eq_refl)).
    reflexivity.
  - apply (proj2 (X17_interrupt_stops_the_loop VisaMonitor.check_appointments 1800%Z
                    (fun _ => mkIterEnv playwright_open_site (Raise interrupt) Ok_tt)
                    2 0 playwright_monitor _ _ interrupt eq_refl) false); reflexivity.
Defined.

(** X18: the [try] of the loop also covers the sleep that follows a check.
    When that sleep raises an ordinary error after a check that returned,
    the turn treats it like a failed check: it logs "Error in monitor loop"
    and sleeps a second time, and the turn ends as that second sleep
    ends. *)
Theorem X18_failed_sleep_is_handled_like_a_failed_check {St check_env}
    (check : check_env -> M (St:=St) bool) check_interval envs i s tc s1 b e :
  check (during_check (envs i)) s = (tc, s1, Ok b) ->
  sleep_after_check (envs i) = Raise e ->
  isinstance e Exception = true ->
  loop_turn check check_interval envs i s
  = (Log INFO "Starting appointment check..."
       :: tc ++ [Log INFO ("Check complete. Waiting " +++ str_int check_interval
                           +++ " seconds until next check...");
                 Sleep check_interval;
                 Log ERROR ("Error in monitor loop: " +++ str e);
                 Sleep check_interval],
     s1,
     match sleep_after_error (envs i) with
     | Ok _ => Ok true
     | Raise e' => Raise e'
     end).
Proof. apply failed_sleep. Qed.

Lemma X18_failed_sleep_is_handled_like_a_failed_check_witness :
  exists tc s1,
    loop_turn VisaMonitor.check_appointments (-5)
      (fun _ => mkIterEnv playwright_closed (Raise negative_sleep) Ok_tt) 0
      playwright_monitor
    = (Log INFO "Starting appointment check..."
         :: tc ++ [Log INFO ("Check complete. Waiting " +++ str_int (-5)
                             +++ " seconds until next check...");
                   Sleep (-5);
                   Log ERROR ("Error in monitor loop: " +++ str negative_sleep);
                   Sleep (-5)],
       s1, Ok true).
Proof.
  eexists. eexists.
  apply (X18_failed_sleep_is_handled_like_a_failed_check VisaMonitor.check_appointments
           (-5)%Z (fun _ => mkIterEnv playwright_closed (Raise negative_sleep) Ok_tt)
           0 playwright_monitor _ _ true negative_sleep); reflexivity.
Defined.

(** X19: nothing guards the sleep of the error handler.  When a check has
    raised an ordinary error and the sleep that follows the error log
    raises, be it a [KeyboardInterrupt], the loop is not left by [break]
    and logs no stop: [run_monitor] raises that exception. *)
Theorem X19_interrupted_backoff_is_not_caught {St check_env}
    (check : check_env -> M (St:=St) bool) check_interval envs turns i s tc s1 e e' :
  check (during_check (envs i)) s = (tc, s1, Raise e) ->
  isinstance e Exception = true ->
  sleep_after_error (envs i) = Raise e' ->
  monitor_loop check check_interval envs (S turns) i s
  = (Log INFO "Starting appointment check..."
       :: tc ++ [Log ERROR ("Error in monitor loop: " +++ str e);
                 Sleep check_interval], s1, Raise e').
Proof. apply failed_backoff. Qed.

Lemma X19_interrupted_backoff_is_not_caught_witness :
  exists tc s1,
    monitor_loop SnoopBot.check_appointments 30
      (fun _ => mkIterEnv selenium_quit_fails Ok_tt (Raise interrupt)) 3 0 selenium_monitor
    = (Log INFO "Starting appointment check..."
         :: tc ++ [Log ERROR ("Error in monitor loop: " +++ str session_lost);
                   Sleep 30], s1, Raise interrupt).
Proof.
  eexists. eexists.
  apply (X19_interrupted_backoff_is_not_caught SnoopBot.check_appointments 30%Z
           (fun _ => mkIterEnv selenium_quit_fails Ok_tt (Raise interrupt))
           2 0 selenium_monitor _ _ session_lost interrupt); reflexivity.
Defined.

(** X20: the loop never goes from one check to the next without sleeping:
    every turn after which the loop takes another turn has, as its last
    event, a sleep of the configured interval. *)
Theorem X20_checks_are_separated_by_a_sleep {St check_env}
    (check : check_env -> M (St:=St) bool) check_interval envs i s t s1 :
  loop_turn check check_interval envs i s = (t, s1, Ok true) ->
  exists t', t = t' ++ [Sleep check_interval].
Proof. apply continuing_turn_slept. Qed.

Lemma X20_checks_are_separated_by_a_sleep_witness :
  exists t',
    trace_of (loop_turn SnoopBot.check_appointments 30
                (fun _ => mkIterEnv selenium_closed Ok_tt Ok_tt) 0 selenium_monitor)
    = t' ++ [Sleep 30].
Proof.
  apply (X20_checks_are_separated_by_a_sleep SnoopBot.check_appointments 30%Z
           (fun _ => mkIterEnv selenium_closed Ok_tt Ok_tt) 0 selenium_monitor _
           (state_of (loop_turn SnoopBot.check_appointments 30
                        (fun _ => mkIterEnv selenium_closed Ok_tt Ok_tt) 0
                        selenium_monitor))).
  reflexivity.
Defined.

(** ** When a mail is out, and what the log says of it *)

(** X21: [send_notification] has sent the mail exactly when the message
    was built and the four calls up to [send_message] returned, and it
    logs "Notification sent" exactly when the closing of the connection
    returned as well.  So a mail that went out is logged as a failure when
    leaving the [with] block raises.  Whatever the mail library answers. *)
Theorem X21_mail_is_out_iff_delivered {St} (get_from get_to : St -> option string)
    env subject message s :
  let t := trace_of (send_notification get_from get_to env subject message s) in
  count is_mail t = (if delivered env then 1 else 0)
  /\ (In (Log INFO ("Notification sent: " +++ subject)) t <-> all_returned env = true).
Proof.
  destruct env as [b c t l m x].
  unfold send_notification, send_notification_body, with_, try_except,
    try_finally, bind, call, emit, gets, info, error, except, ret,
    delivered, all_returned.
  cbn.
  repeat match goal with
    | |- context [match ?r with _ => _ end] => is_var r; destruct r; cbn
    | |- context [isinstance ?e ?c] => destruct (isinstance e c); cbn
    end;
    (split; [reflexivity |]);
    (split; [intros H; repeat destruct H as [H | H]; try discriminate H;
               try contradiction; reflexivity
            | intros H; try discriminate H; auto]).
Qed.

(** ** The location test of the Playwright login *)

Lemma prefix_split a b :
  String.prefix a b = true <-> exists post, b = a +++ post.
Proof.
  revert b. induction a as [| c a IH]; intros b.
  - split; [intros _; exists b; reflexivity | intros _; destruct b; reflexivity].
  - destruct b as [| d b]; cbn.
    + split; [discriminate | intros [post H]; discriminate H].
    + destruct (ascii_dec c d) as [<- | Hne].
      * rewrite IH. split; intros [post H]; exists post.
        -- rewrite H. reflexivity.
        -- injection H as ->. reflexivity.
      * split; [discriminate |]. intros [post H]. injection H as -> _. contradiction.
Qed.

Lemma contains_unfold needle hay :
  contains needle hay
  = if String.prefix needle hay then true
    else match hay with
         | EmptyString => false
         | String _ rest => contains needle rest
         end.
Proof. destruct hay; reflexivity. Qed.

(** [needle in hay] holds exactly when [hay] is [pre + needle + post]. *)
Lemma contains_split needle hay :
  contains needle hay = true <-> exists pre post, hay = pre +++ needle +++ post.
Proof.
  split.
  - induction hay as [| c hay IH]; rewrite contains_unfold;
      destruct (String.prefix needle _) eqn:Hp; intros H.
    + apply prefix_split in Hp. destruct Hp as [post Hp]. exists "", post. exact Hp.
    + discriminate H.
    + apply prefix_split in Hp. destruct Hp as [post Hp]. exists "", post. exact Hp.
    + destruct (IH H) as (pre & post & ->). exists (String c pre), post. reflexivity.
  - intros (pre & post & ->). induction pre as [| c pre IH]; rewrite contains_unfold.
    + cbn [String.append].
      assert (Hp : String.prefix needle (needle +++ post) = true)
        by (apply prefix_split; exists post; reflexivity).
      rewrite Hp. reflexivity.
    + cbn [String.append]. rewrite IH.
      destruct (String.prefix needle _); reflexivity.
Qed.

(** X22: the location test of the Playwright [login] is a test for a
    substring.  Once the form was submitted and the location read, [login]
    returns [False] exactly when the location is some text, then
    [sign_in], then some text: on the sign-in URL, and as well on any other
    address that has [sign_in] in its path or query. *)
Theorem X22_playwright_login_fails_on_any_sign_in_address E self url :
  VisaMonitor.submission_completes E = true ->
  VisaMonitor.page_url E = Ok url ->
  (value_of (VisaMonitor.login E self) = Ok false
   <-> exists pre post, url = pre +++ "sign_in" +++ post).
Proof.
  intros Hs Hu. rewrite (playwright_login_location E self url Hs Hu).
  rewrite <- contains_split.
  destruct (contains "sign_in" url); cbn; split; congruence.
Qed.

Lemma X22_playwright_login_fails_on_any_sign_in_address_witness :
  value_of (VisaMonitor.login (playwright_page 1 2 forgot_password_url None None)
              playwright_monitor) = Ok false.
Proof.
  apply (proj2 (X22_playwright_login_fails_on_any_sign_in_address
                  (playwright_page 1 2 forgot_password_url None None)
                  playwright_monitor forgot_password_url eq_refl eq_refl)).
  exists "https://ais.usvisa-info.com/en-ca/niv/users/password/new?from=", "".
  reflexivity.
Defined.
